(** * shopify-wtsp-hooks: the webhook handlers of [src/index.ts]

    A shallow embedding of the two Express handlers
    ([/webhooks/checkouts/update] and [/webhooks/orders/create]), of the
    helper [getFullName], of the earlier copy of the checkout handler, and
    of the part of the Firestore and axios interfaces they go through.

    - JavaScript strings are [string]; a character is a code unit below 256.
    - An optional property of the payload ([?:], a JSON [null]) is an
      [option]: both [undefined] and [null] are nullish for [??], [?.]
      and [!].  The properties of the provider's answer that end up in an
      entry keep the two apart ([Js.Property]), as the Firestore client
      does.
    - The handlers are asynchronous functions over three shared resources
      (the [whatsappLogs] collection, the messaging endpoint, the HTTP
      response).  They are written in a state-and-exception monad [Task]
      over a [World] that records the collection, the posts made and the
      status codes sent; [await] is sequencing, a rejected promise or a
      thrown [TypeError] is the [Thrown] completion.  One run of a handler
      is one [Task]: deliveries are processed one after the other.
    - The libraries are not part of the repository.  The text of a buffer,
      the keyed hash, the phone parser and number formatting are
      parameters of the handlers; the clock and the messaging provider are
      inputs of each call.
    - The collection is a list of documents in insertion order.  It
      answers every query and stores every valid document; a query is a
      function of the list ([where] filters, [orderBy] keeps the documents
      that have the field and sorts them, [limit] truncates). *)

From Stdlib Require Import ZArith List Bool Ascii String Lia.
Import ListNotations.
Open Scope string_scope.
Open Scope Z_scope.

(** ** JavaScript strings *)

Module Js.

(** Truthiness of a string: every string except the empty one. *)
Definition truthy (s : string) : bool :=
  match s with
  | EmptyString => false
  | String _ _ => true
  end.

(** [!x] for [x : string | undefined]. *)
Definition not_ (x : option string) : bool :=
  match x with
  | Some s => negb (truthy s)
  | None => true
  end.

(** [a ?? b]: [b] only when [a] is nullish. *)
Definition nullish_or {A : Type} (a b : option A) : option A :=
  match a with
  | Some _ => a
  | None => b
  end.

(** [a ?? d] with a default that is always there. *)
Definition nullish_default {A : Type} (a : option A) (d : A) : A :=
  match a with
  | Some x => x
  | None => d
  end.

(** [o?.f]: the property of an object that may be missing. *)
Definition opt_chain {A B : Type} (o : option A) (f : A -> option B)
  : option B :=
  match o with
  | Some x => f x
  | None => None
  end.

(** White space of [String.prototype.trim] among the code units below
    256: TAB, LF, VT, FF, CR, SPACE and NBSP. *)
Definition is_white_space (c : ascii) : bool :=
  let n := nat_of_ascii c in
  (Nat.eqb n 9 || Nat.eqb n 10 || Nat.eqb n 11 || Nat.eqb n 12
   || Nat.eqb n 13 || Nat.eqb n 32 || Nat.eqb n 160)%bool.

Fixpoint trimStart (s : string) : string :=
  match s with
  | EmptyString => EmptyString
  | String c r => if is_white_space c then trimStart r else s
  end.

Fixpoint trimEnd (s : string) : string :=
  match s with
  | EmptyString => EmptyString
  | String c r =>
      match trimEnd r with
      | EmptyString =>
          if is_white_space c then EmptyString else String c EmptyString
      | r' => String c r'
      end
  end.

Definition trim (s : string) : string := trimEnd (trimStart s).

(** A property of a parsed JSON answer that holds a string when it is
    there: missing ([undefined]), [null], or the string.  Unlike [??] and
    [?.], the Firestore client tells the first two apart. *)
Inductive Property :=
| Missing
| Null
| Text (s : string).

(** [o?.f] for such a property. *)
Definition opt_property {A : Type} (o : option A) (f : A -> Property)
  : Property :=
  match o with
  | Some x => f x
  | None => Missing
  end.

(** A template literal prints an [undefined] as the word. *)
Definition interpolate (x : option string) : string :=
  nullish_default x "undefined".

(** The error objects the handlers can catch: an axios error carries the
    provider's response body, a [TypeError] or a Firestore validation
    error only a message. *)
Record Error := mkError {
  response_data : option string;
  message : string
}.

(** [new Error(msg)]; a [TypeError] is one of these. *)
Definition new_Error (msg : string) : Error :=
  {| response_data := None; message := msg |}.

Definition TypeError (msg : string) : Error := new_Error msg.

End Js.

(** ** The Firestore collection [whatsappLogs] *)

Module Firestore.

(** Field values the handlers write or read.  [VUndefined] exists only
    in the argument of [add]; it is never stored. *)
Inductive Value :=
| VUndefined
| VNull
| VString (s : string)
| VTimestamp (millis : Z).

Definition value_eqb (a b : Value) : bool :=
  match a, b with
  | VUndefined, VUndefined => true
  | VNull, VNull => true
  | VString s, VString t => String.eqb s t
  | VTimestamp m, VTimestamp n => Z.eqb m n
  | _, _ => false
  end.

(** A document is the list of its fields, in the order of the object
    literal that created it. *)
Definition DocumentData := list (string * Value).

Fixpoint field (name : string) (d : DocumentData) : option Value :=
  match d with
  | [] => None
  | (k, v) :: rest => if String.eqb k name then Some v else field name rest
  end.

Definition is_undefined (v : Value) : bool :=
  match v with
  | VUndefined => true
  | _ => false
  end.

(** [add] validates its argument: a field holding [undefined] is refused
    (the source does not enable [ignoreUndefinedProperties]). *)
Definition valid_document (d : DocumentData) : bool :=
  forallb (fun kv => negb (is_undefined (snd kv))) d.

(** [.where(name, "==", v)] *)
Definition where_eq (name : string) (v : Value) (docs : list DocumentData)
  : list DocumentData :=
  filter (fun d => match field name d with
                   | Some x => value_eqb x v
                   | None => false
                   end) docs.

(** Order of values of different types: null, then timestamps, then
    strings. *)
Definition type_rank (v : Value) : Z :=
  match v with
  | VUndefined => 0
  | VNull => 1
  | VTimestamp _ => 2
  | VString _ => 3
  end.

Definition value_leb (a b : Value) : bool :=
  match a, b with
  | VTimestamp m, VTimestamp n => m <=? n
  | VString s, VString t => String.leb s t
  | _, _ => type_rank a <=? type_rank b
  end.

Definition sort_key (name : string) (d : DocumentData) : Value :=
  Js.nullish_default (field name d) VUndefined.

Fixpoint insert_desc (name : string) (d : DocumentData)
         (sorted : list DocumentData) : list DocumentData :=
  match sorted with
  | [] => [d]
  | e :: rest =>
      if value_leb (sort_key name e) (sort_key name d)
      then d :: sorted
      else e :: insert_desc name d rest
  end.

(** [.orderBy(name, "desc")]: only the documents that have the field,
    greatest value first. *)
Definition orderBy_desc (name : string) (docs : list DocumentData)
  : list DocumentData :=
  fold_right (insert_desc name) []
    (filter (fun d => match field name d with
                      | Some _ => true
                      | None => false
                      end) docs).

(** [.limit(n)] *)
Definition limit (n : nat) (docs : list DocumentData) : list DocumentData :=
  firstn n docs.

(** [snapshot.empty] *)
Definition empty (docs : list DocumentData) : bool :=
  match docs with
  | [] => true
  | _ :: _ => false
  end.

End Firestore.


(** ** The webhook payload ([interface ShopifyCheckout])

    Only the properties the handlers read. *)

Record Customer := mkCustomer {
  customer_first_name : option string;
  customer_last_name : option string;
  customer_phone : option string
}.

Record Address := mkAddress {
  address_first_name : option string;
  address_last_name : option string;
  address_phone : option string
}.

Record ShopifyCheckout := mkCheckout {
  id : string;
  customer : option Customer;
  shipping_address : option Address;
  billing_address : option Address;
  completed_at : option string;
  total_price : option string
}.

(** A Node [Buffer]. *)
Definition Buffer := list Byte.byte.

(** The request as the handler sees it: the signature header, the bytes
    the JSON body parser's [verify] hook stored (none when the parser did
    not run), and the parsed body. *)
Record Request := mkRequest {
  header_hmac : option string;
  rawBody : option Buffer;
  body : ShopifyCheckout
}.

(** [parsePhoneNumberFromString] returns an object or [undefined]. *)
Record PhoneNumber := mkPhoneNumber {
  number : string;
  isValid : bool
}.

(** ** The outbound message *)

Inductive TemplateParameter :=
| ImageParameter (link : option string)
| TextParameter (text : option string)
| CouponCodeParameter (coupon_code : option string).

Inductive Component :=
| Header (parameters : list TemplateParameter)
| Body (parameters : list TemplateParameter)
| Button (sub_type : string) (index : Z) (parameters : list TemplateParameter).

Record Template := mkTemplate {
  template_name : option string;
  language_code : string;
  components : list Component
}.

Record MessageData := mkMessageData {
  messaging_product : string;
  to : string;
  message_type : string;
  template : Template
}.

Record HttpPost := mkHttpPost {
  url : string;
  data : MessageData;
  headers : list (string * string)
}.

(** [response.data.messages[0]] *)
Record MessageDescriptor := mkMessageDescriptor {
  message_id : Js.Property;
  message_status : Js.Property
}.

Record AxiosResponse := mkAxiosResponse {
  data_messages : option (list MessageDescriptor)
}.

Inductive AxiosResult :=
| Resolved (response : AxiosResponse)
| Rejected (error : Js.Error).

(** ** Configuration and surroundings *)

(** The variables read from [process.env]; all but the secret may be
    undefined. *)
Record ProcessEnv := mkProcessEnv {
  WHATSAPP_ACCESS_TOKEN : option string;
  WHATSAPP_PHONE_NUMBER_ID : option string;
  DISCOUNT_CODE : option string;
  IMAGE_URL : option string;
  SHOPIFY_SECRET_KEY : string;
  ABANDONED_CHECKOUT_TEMPLATE : option string;
  ORDER_CREATE_TEMPLATE : option string
}.

(** What one run of a handler reads from outside: [new Date()], the later
    [admin.firestore.Timestamp.now()] (both in milliseconds), the
    provider's answer to a post, and the message of the error with which
    the Firestore client refuses a document. *)
Record Ambient := mkAmbient {
  new_Date : Z;
  Timestamp_now : Z;
  provider : HttpPost -> AxiosResult;
  refusal : Firestore.DocumentData -> string
}.

(** The shared resources. *)
Record World := mkWorld {
  whatsappLogs : list Firestore.DocumentData;
  posted : list HttpPost;
  statusSent : list Z
}.

(** ** Asynchronous code as a state-and-exception monad *)

Inductive Completion (A : Type) :=
| Normal (a : A)
| Thrown (e : Js.Error).

Arguments Normal {A} a.
Arguments Thrown {A} e.

Definition Task (A : Type) := World -> Completion A * World.

Definition ret {A : Type} (a : A) : Task A := fun w => (Normal a, w).

Definition throw {A : Type} (e : Js.Error) : Task A := fun w => (Thrown e, w).

Definition bind {A B : Type} (m : Task A) (k : A -> Task B) : Task B :=
  fun w =>
    match m w with
    | (Normal a, w') => k a w'
    | (Thrown e, w') => (Thrown e, w')
    end.

Notation "x <- m ;; k" := (bind m (fun x => k))
  (at level 61, m at next level, right associativity).
Notation "m ;; k" := (bind m (fun _ => k))
  (at level 61, right associativity).

(** [try { body } catch (error) { handler }] *)
Definition try_catch {A : Type} (body : Task A) (handler : Js.Error -> Task A)
  : Task A :=
  fun w =>
    match body w with
    | (Normal a, w') => (Normal a, w')
    | (Thrown e, w') => handler e w'
    end.

(** [res.sendStatus(code)] *)
Definition sendStatus (code : Z) : Task unit :=
  fun w => (Normal tt,
            {| whatsappLogs := whatsappLogs w;
               posted := posted w;
               statusSent := statusSent w ++ [code] |}).

(** [db.collection("whatsappLogs")...get()]: the query runs on the
    collection as it is now. *)
Definition get (query : list Firestore.DocumentData -> list Firestore.DocumentData)
  : Task (list Firestore.DocumentData) :=
  fun w => (Normal (query (whatsappLogs w)), w).

(** The error [add] throws for a document it refuses: an [Error] with
    the client's message and no [response]. *)
Definition invalid_document (amb : Ambient) (doc : Firestore.DocumentData)
  : Js.Error :=
  Js.new_Error (refusal amb doc).

(** [db.collection("whatsappLogs").add(doc)] *)
Definition add (amb : Ambient) (doc : Firestore.DocumentData) : Task unit :=
  fun w =>
    if Firestore.valid_document doc
    then (Normal tt,
          {| whatsappLogs := whatsappLogs w ++ [doc];
             posted := posted w;
             statusSent := statusSent w |})
    else (Thrown (invalid_document amb doc), w).

(** [axios.post(url, data, { headers })]: the post is made, then the
    promise resolves or rejects as the provider answers. *)
Definition axios_post (amb : Ambient) (p : HttpPost) : Task AxiosResponse :=
  fun w =>
    let w' := {| whatsappLogs := whatsappLogs w;
                 posted := posted w ++ [p];
                 statusSent := statusSent w |} in
    match provider amb p with
    | Resolved r => (Normal r, w')
    | Rejected e => (Thrown e, w')
    end.

(** A property of the answer as the field value it is written as. *)
Definition property_value (x : Js.Property) : Firestore.Value :=
  match x with
  | Js.Missing => Firestore.VUndefined
  | Js.Null => Firestore.VNull
  | Js.Text s => Firestore.VString s
  end.

(** ** [getFullName] *)

Definition full_name_of (first last : option string) : string :=
  Js.trim (Js.nullish_default first "" ++ " " ++ Js.nullish_default last "").

Definition getFullName (checkout : ShopifyCheckout) : string :=
  let nameFromCustomer :=
    full_name_of (Js.opt_chain (customer checkout) customer_first_name)
                 (Js.opt_chain (customer checkout) customer_last_name) in
  let nameFromShipping :=
    full_name_of (Js.opt_chain (shipping_address checkout) address_first_name)
                 (Js.opt_chain (shipping_address checkout) address_last_name) in
  let nameFromBilling :=
    full_name_of (Js.opt_chain (billing_address checkout) address_first_name)
                 (Js.opt_chain (billing_address checkout) address_last_name) in
  if Js.truthy nameFromCustomer then nameFromCustomer
  else if Js.truthy nameFromShipping then nameFromShipping
  else if Js.truthy nameFromBilling then nameFromBilling
  else "Unknown User".

(** The phone the handlers start from:
    [customer?.phone ?? shipping_address?.phone ?? billing_address?.phone]. *)
Definition rawPhone (checkout : ShopifyCheckout) : option string :=
  Js.nullish_or (Js.opt_chain (customer checkout) customer_phone)
    (Js.nullish_or (Js.opt_chain (shipping_address checkout) address_phone)
                   (Js.opt_chain (billing_address checkout) address_phone)).

(** [checkout.customer?.first_name ?? "there"] *)
Definition customerName (checkout : ShopifyCheckout) : string :=
  Js.nullish_default (Js.opt_chain (customer checkout) customer_first_name)
                     "there".

(** ** The handlers *)

Section Handlers.

(** [buffer.toString("utf8")] *)
Variable Buffer_toString : Buffer -> string.

(** [crypto.createHmac("sha256", key).update(text).digest("base64")] *)
Variable createHmac_sha256_base64 : string -> string -> string.

(** [parsePhoneNumberFromString(text, defaultCountry)] *)
Variable parsePhoneNumberFromString : string -> string -> option PhoneNumber.

(** [`${parseFloat(text)}`]: the text of the number [parseFloat] reads. *)
Variable parseFloat_text : string -> string.

Variable env : ProcessEnv.

Definition messages_url : string :=
  "https://graph.facebook.com/v22.0/"
  ++ Js.interpolate (WHATSAPP_PHONE_NUMBER_ID env) ++ "/messages".

Definition request_headers : list (string * string) :=
  [("Authorization", "Bearer " ++ Js.interpolate (WHATSAPP_ACCESS_TOKEN env));
   ("Content-Type", "application/json")].

(** [messageData] of the checkout handler (lines 240-276). *)
Definition checkout_messageData (sanitizedPhone customerName : string)
  : MessageData :=
  {| messaging_product := "whatsapp";
     to := sanitizedPhone;
     message_type := "template";
     template :=
       {| template_name := ABANDONED_CHECKOUT_TEMPLATE env;
          language_code := "en_US";
          components :=
            [Header [ImageParameter (IMAGE_URL env)];
             Body [TextParameter (Some customerName);
                   TextParameter (DISCOUNT_CODE env)];
             Button "COPY_CODE" 0
                    [CouponCodeParameter (DISCOUNT_CODE env)]] |} |}.

(** [messageData] of the order handler (lines 363-392). *)
Definition order_messageData (sanitizedPhone customerName checkout_id
                              totalAmount : string) : MessageData :=
  {| messaging_product := "whatsapp";
     to := sanitizedPhone;
     message_type := "template";
     template :=
       {| template_name := ORDER_CREATE_TEMPLATE env;
          language_code := "en";
          components :=
            [Header [ImageParameter (IMAGE_URL env)];
             Body [TextParameter (Some customerName);
                   TextParameter (Some checkout_id);
                   TextParameter (Some totalAmount)]] |} |}.

(** [response?.data?.messages?.[0]] *)
Definition first_message (response : AxiosResponse)
  : option MessageDescriptor :=
  Js.opt_chain (data_messages response) (fun ms => nth_error ms 0).

(** The entry written after the post resolved (lines 292-298, 408-414). *)
Definition sent_entry (fullName sanitizedPhone checkoutId : string)
           (response : AxiosResponse) : Firestore.DocumentData :=
  [("fullName", Firestore.VString fullName);
   ("phone", Firestore.VString sanitizedPhone);
   ("messageId",
     property_value (Js.opt_property (first_message response) message_id));
   ("checkoutId", Firestore.VString checkoutId);
   ("status",
     property_value
       (Js.opt_property (first_message response) message_status))].

(** [error.response?.data ?? error.message] *)
Definition errorMsg (error : Js.Error) : string :=
  Js.nullish_default (Js.response_data error) (Js.message error).

(** The entry written in the [catch] block (lines 302-309, 419-426). *)
Definition failed_entry (amb : Ambient)
           (fullName sanitizedPhone checkoutId : string) (error : Js.Error)
  : Firestore.DocumentData :=
  [("fullName", Firestore.VString fullName);
   ("phone", Firestore.VString sanitizedPhone);
   ("checkoutId", Firestore.VString checkoutId);
   ("status", Firestore.VString "failed");
   ("timestamp", Firestore.VTimestamp (Timestamp_now amb));
   ("error", Firestore.VString (errorMsg error))].

(** The [try]/[catch] that ends both handlers (lines 278-312 and 394-427):
    post the message and record the outcome. *)
Definition dispatch (amb : Ambient) (messageData : MessageData)
           (fullName sanitizedPhone checkoutId : string) : Task unit :=
  try_catch
    (response <- axios_post amb {| url := messages_url;
                                   data := messageData;
                                   headers := request_headers |} ;;
     add amb (sent_entry fullName sanitizedPhone checkoutId response))
    (fun error =>
       add amb (failed_entry amb fullName sanitizedPhone checkoutId error)).

(** [req.rawBody.toString("utf8")] *)
Definition rawBody_toString (req : Request) : Task string :=
  match rawBody req with
  | Some buffer => ret (Buffer_toString buffer)
  | None =>
      throw (Js.TypeError
               "Cannot read properties of undefined (reading 'toString')")
  end.

(** [recentMessages.docs[0].data().timestamp.toDate()] (line 233): the
    three property reads are not guarded. *)
Definition docs0_timestamp_toDate (docs : list Firestore.DocumentData)
  : Task Z :=
  match docs with
  | [] =>
      throw (Js.TypeError
               "Cannot read properties of undefined (reading 'data')")
  | d :: _ =>
      match Firestore.field "timestamp" d with
      | Some (Firestore.VTimestamp millis) => ret millis
      | Some (Firestore.VString _) =>
          throw (Js.TypeError "timestamp.toDate is not a function")
      | Some Firestore.VNull =>
          throw (Js.TypeError
                   "Cannot read properties of null (reading 'toDate')")
      | Some Firestore.VUndefined | None =>
          throw (Js.TypeError
                   "Cannot read properties of undefined (reading 'toDate')")
      end
  end.

(** The cooldown query (lines 226-231). *)
Definition recentMessages_query (sanitizedPhone : string)
           (docs : list Firestore.DocumentData)
  : list Firestore.DocumentData :=
  Firestore.limit 1
    (Firestore.orderBy_desc "timestamp"
       (Firestore.where_eq "phone" (Firestore.VString sanitizedPhone) docs)).

(** [app.post("/webhooks/checkouts/update", ...)] (lines 162-316) *)
Definition checkouts_update (amb : Ambient) (req : Request) : Task unit :=
  let hmac := header_hmac req in
  if Js.not_ hmac || negb (Js.truthy (SHOPIFY_SECRET_KEY env))
  then sendStatus 403
  else
    text <- rawBody_toString req ;;
    let computedHmac :=
      createHmac_sha256_base64 (SHOPIFY_SECRET_KEY env) text in
    if negb (String.eqb computedHmac (Js.nullish_default hmac ""))
    then sendStatus 403
    else
      sendStatus 200 ;;
      let checkout := body req in
      let checkoutId := id checkout in
      if negb (Js.not_ (completed_at checkout)) then ret tt
      else
        if Js.not_ (rawPhone checkout) then ret tt
        else
          let phoneNumber :=
            parsePhoneNumberFromString
              (Js.nullish_default (rawPhone checkout) "") "IN" in
          let fullName := getFullName checkout in
          match phoneNumber with
          | None => ret tt
          | Some phoneNumber =>
              if negb (isValid phoneNumber) then ret tt
              else
                let sanitizedPhone := number phoneNumber in
                let customerName := customerName checkout in
                existing <- get (Firestore.where_eq "checkoutId"
                                   (Firestore.VString checkoutId)) ;;
                if negb (Firestore.empty existing) then ret tt
                else
                  recentMessages <- get (recentMessages_query sanitizedPhone) ;;
                  hh <- docs0_timestamp_toDate recentMessages ;;
                  let now := new_Date amb in
                  if negb (Firestore.empty recentMessages)
                     && (now - hh <? 24 * 60 * 60 * 1000)
                  then ret tt
                  else
                    dispatch amb
                      (checkout_messageData sanitizedPhone customerName)
                      fullName sanitizedPhone checkoutId
          end.

(** [app.post("/webhooks/orders/create", ...)] (lines 318-430) *)
Definition orders_create (amb : Ambient) (req : Request) : Task unit :=
  let hmac := header_hmac req in
  if Js.not_ hmac || negb (Js.truthy (SHOPIFY_SECRET_KEY env))
  then sendStatus 403
  else
    text <- rawBody_toString req ;;
    let computedHmac :=
      createHmac_sha256_base64 (SHOPIFY_SECRET_KEY env) text in
    if negb (String.eqb computedHmac (Js.nullish_default hmac ""))
    then sendStatus 403
    else
      sendStatus 200 ;;
      let checkout := body req in
      let fullName := getFullName checkout in
      if Js.not_ (rawPhone checkout) then ret tt
      else
        let phoneNumber :=
          parsePhoneNumberFromString
            (Js.nullish_default (rawPhone checkout) "") "IN" in
        match phoneNumber with
        | None => ret tt
        | Some phoneNumber =>
            if negb (isValid phoneNumber) then ret tt
            else
              let sanitizedPhone := number phoneNumber in
              let customerName := customerName checkout in
              let totalAmount :=
                parseFloat_text (Js.nullish_default (total_price checkout) "0") in
              dispatch amb
                (order_messageData sanitizedPhone customerName
                   (id checkout) totalAmount)
                fullName sanitizedPhone (id checkout)
        end.

End Handlers.

(** ** The earlier copy of the checkout handler ([src/unnamed/part_000])

    The same handler before [getFullName] and the configurable template
    were added: the template is "abd_chk", the header image comes from
    [DISCOUNT_IMAGE_URL], and the entries have no [fullName]. *)

Module Part000.

Record ProcessEnv := mkProcessEnv {
  WHATSAPP_ACCESS_TOKEN : option string;
  WHATSAPP_PHONE_NUMBER_ID : option string;
  DISCOUNT_CODE : option string;
  DISCOUNT_IMAGE_URL : option string;
  SHOPIFY_SECRET_KEY : string
}.

Section Handler.

Variable Buffer_toString : Buffer -> string.
Variable createHmac_sha256_base64 : string -> string -> string.
Variable parsePhoneNumberFromString : string -> string -> option PhoneNumber.
Variable env : ProcessEnv.

(** [messageData] (lines 170-206). *)
Definition messageData (sanitizedPhone customerName : string) : MessageData :=
  {| messaging_product := "whatsapp";
     to := sanitizedPhone;
     message_type := "template";
     template :=
       {| template_name := Some "abd_chk";
          language_code := "en_US";
          components :=
            [Header [ImageParameter (DISCOUNT_IMAGE_URL env)];
             Body [TextParameter (Some customerName);
                   TextParameter (DISCOUNT_CODE env)];
             Button "COPY_CODE" 0
                    [CouponCodeParameter (DISCOUNT_CODE env)]] |} |}.

(** The entry of the [try] block (lines 222-227). *)
Definition sent_entry (sanitizedPhone checkoutId : string)
           (response : AxiosResponse) : Firestore.DocumentData :=
  [("phone", Firestore.VString sanitizedPhone);
   ("messageId",
     property_value (Js.opt_property (first_message response) message_id));
   ("checkoutId", Firestore.VString checkoutId);
   ("status",
     property_value
       (Js.opt_property (first_message response) message_status))].

(** The entry of the [catch] block (lines 232-238). *)
Definition failed_entry (amb : Ambient) (sanitizedPhone checkoutId : string)
           (error : Js.Error) : Firestore.DocumentData :=
  [("phone", Firestore.VString sanitizedPhone);
   ("checkoutId", Firestore.VString checkoutId);
   ("status", Firestore.VString "failed");
   ("timestamp", Firestore.VTimestamp (Timestamp_now amb));
   ("error", Firestore.VString (errorMsg error))].

(** The [try]/[catch] (lines 208-241). *)
Definition dispatch (amb : Ambient) (sanitizedPhone customerName
                                     checkoutId : string) : Task unit :=
  try_catch
    (response <-
       axios_post amb
         {| url := "https://graph.facebook.com/v22.0/"
                   ++ Js.interpolate (WHATSAPP_PHONE_NUMBER_ID env)
                   ++ "/messages";
            data := messageData sanitizedPhone customerName;
            headers :=
              [("Authorization",
                 "Bearer " ++ Js.interpolate (WHATSAPP_ACCESS_TOKEN env));
               ("Content-Type", "application/json")] |} ;;
     add amb (sent_entry sanitizedPhone checkoutId response))
    (fun error =>
       add amb (failed_entry amb sanitizedPhone checkoutId error)).

(** [app.post("/webhooks/checkouts/update", ...)] (lines 93-245) *)
Definition checkouts_update (amb : Ambient) (req : Request) : Task unit :=
  let hmac := header_hmac req in
  if Js.not_ hmac || negb (Js.truthy (SHOPIFY_SECRET_KEY env))
  then sendStatus 403
  else
    text <- rawBody_toString Buffer_toString req ;;
    let computedHmac :=
      createHmac_sha256_base64 (SHOPIFY_SECRET_KEY env) text in
    if negb (String.eqb computedHmac (Js.nullish_default hmac ""))
    then sendStatus 403
    else
      sendStatus 200 ;;
      let checkout := body req in
      let checkoutId := id checkout in
      if negb (Js.not_ (completed_at checkout)) then ret tt
      else
        if Js.not_ (rawPhone checkout) then ret tt
        else
          let phoneNumber :=
            parsePhoneNumberFromString
              (Js.nullish_default (rawPhone checkout) "") "IN" in
          match phoneNumber with
          | None => ret tt
          | Some phoneNumber =>
              if negb (isValid phoneNumber) then ret tt
              else
                let sanitizedPhone := number phoneNumber in
                let customerName := customerName checkout in
                existing <- get (Firestore.where_eq "checkoutId"
                                   (Firestore.VString checkoutId)) ;;
                if negb (Firestore.empty existing) then ret tt
                else
                  recentMessages <- get (recentMessages_query sanitizedPhone) ;;
                  hh <- docs0_timestamp_toDate recentMessages ;;
                  let now := new_Date amb in
                  if negb (Firestore.empty recentMessages)
                     && (now - hh <? 24 * 60 * 60 * 1000)
                  then ret tt
                  else dispatch amb sanitizedPhone customerName checkoutId
          end.

End Handler.

End Part000.

(** ** Notions used in the statements *)

(** The entries of the log recorded for one event id. *)
Definition entries_for (eventId : string) (docs : list Firestore.DocumentData)
  : nat :=
  List.length (Firestore.where_eq "checkoutId" (Firestore.VString eventId) docs).

(** A run left the log and the messaging endpoint untouched. *)
Definition untouched (w w' : World) : Prop :=
  whatsappLogs w' = whatsappLogs w /\ posted w' = posted w.

(** The text parameters of the body component of a message. *)
Definition body_texts (m : MessageData) : list (option string) :=
  flat_map (fun c =>
              match c with
              | Body ps =>
                  flat_map (fun p =>
                              match p with
                              | TextParameter t => [t]
                              | _ => []
                              end) ps
              | _ => []
              end) (components (template m)).

(** The three phones of a payload, in the order the handlers read them. *)
Definition phone_sources (checkout : ShopifyCheckout) : list (option string) :=
  [Js.opt_chain (customer checkout) customer_phone;
   Js.opt_chain (shipping_address checkout) address_phone;
   Js.opt_chain (billing_address checkout) address_phone].

(** The first source that is present, empty or not. *)
Fixpoint first_present (sources : list (option string)) : option string :=
  match sources with
  | [] => None
  | Some s :: _ => Some s
  | None :: rest => first_present rest
  end.

(** The resolution in the words of the specification: the first source
    that is present and not empty. *)
Fixpoint first_non_empty (sources : list (option string)) : option string :=
  match sources with
  | [] => None
  | Some s :: rest => if Js.truthy s then Some s else first_non_empty rest
  | None :: rest => first_non_empty rest
  end.

Section Verification.

Variable Buffer_toString : Buffer -> string.
Variable createHmac_sha256_base64 : string -> string -> string.
Variable env : ProcessEnv.

(** The signature check of both handlers passes: the header is present
    and not empty, the secret is not empty, and the digest of the raw body
    (read as UTF-8 text) equals the header. *)
Definition signature_verifies (req : Request) (raw : Buffer) : bool :=
  negb (Js.not_ (header_hmac req))
  && Js.truthy (SHOPIFY_SECRET_KEY env)
  && String.eqb (createHmac_sha256_base64 (SHOPIFY_SECRET_KEY env)
                   (Buffer_toString raw))
                (Js.nullish_default (header_hmac req) "").

End Verification.

(** ** A concrete configuration

    Stand-ins for the libraries on the inputs of the examples: a buffer of
    ASCII bytes is read byte by byte, the keyed hash is an injective
    tagging of key and text, the phone parser answers
    as the library does on the three texts below, and the number printer
    on the two amounts. *)

Definition demo_toString (buffer : Buffer) : string :=
  string_of_list_byte buffer.

Definition demo_hmac (key text : string) : string :=
  "sha256=" ++ key ++ ":" ++ text.

Definition demo_parse (text defaultCountry : string) : option PhoneNumber :=
  if String.eqb text "+919876543210"
  then Some {| number := "+919876543210"; isValid := true |}
  else if String.eqb text "9876543210"
  then (if String.eqb defaultCountry "IN"
        then Some {| number := "+919876543210"; isValid := true |}
        else None)
  else if String.eqb text "+9112"
  then Some {| number := "+9112"; isValid := false |}
  else None.

Definition demo_parseFloat (text : string) : string :=
  if String.eqb text "499.00" then "499" else text.

Definition demo_env : ProcessEnv :=
  {| WHATSAPP_ACCESS_TOKEN := Some "token";
     WHATSAPP_PHONE_NUMBER_ID := Some "1055";
     DISCOUNT_CODE := Some "SAVE10";
     IMAGE_URL := Some "https://cdn.example/banner.png";
     SHOPIFY_SECRET_KEY := "s3cret";
     ABANDONED_CHECKOUT_TEMPLATE := Some "abandoned_checkout";
     ORDER_CREATE_TEMPLATE := Some "order_create" |}.

Definition accepted : AxiosResponse :=
  {| data_messages :=
       Some [{| message_id := Js.Text "wamid.1";
                message_status := Js.Text "accepted" |}] |}.

(** A stand-in for the message of the client's refusal. *)
Definition demo_refusal (doc : Firestore.DocumentData) : string :=
  "not a valid Firestore document: undefined field value".

(** An hour, and the instant of the examples, in milliseconds. *)
Definition hour : Z := 60 * 60 * 1000.
Definition t0 : Z := 1700000000000.

Definition demo_ambient (now : Z) : Ambient :=
  {| new_Date := now;
     Timestamp_now := now + 1;
     provider := fun _ => Resolved accepted;
     refusal := demo_refusal |}.

Definition failing_ambient (now : Z) : Ambient :=
  {| new_Date := now;
     Timestamp_now := now + 1;
     provider := fun _ =>
       Rejected {| Js.response_data := Some "(#131030) not in allowed list";
                   Js.message := "Request failed with status code 400" |};
     refusal := demo_refusal |}.

Definition signed (raw : string) (payload : ShopifyCheckout) : Request :=
  {| header_hmac := Some (demo_hmac "s3cret" raw);
     rawBody := Some (list_byte_of_string raw);
     body := payload |}.

(** A delivery that carries no signature header. *)
Definition unsigned (raw : string) (payload : ShopifyCheckout) : Request :=
  {| header_hmac := None;
     rawBody := Some (list_byte_of_string raw);
     body := payload |}.

(** The checkout of the specification's scenario. *)
Definition chk_1 : ShopifyCheckout :=
  {| id := "chk_1";
     customer := Some {| customer_first_name := Some "Asha";
                         customer_last_name := None;
                         customer_phone := Some "+919876543210" |};
     shipping_address := None;
     billing_address := None;
     completed_at := None;
     total_price := None |}.

Definition order_7 : ShopifyCheckout :=
  {| id := "ord_7";
     customer := Some {| customer_first_name := None;
                         customer_last_name := None;
                         customer_phone := Some "+919876543210" |};
     shipping_address := Some {| address_first_name := Some "Asha";
                                 address_last_name := Some "Rao";
                                 address_phone := None |};
     billing_address := None;
     completed_at := Some "2023-11-14T22:13:20Z";
     total_price := Some "499.00" |}.

(** A payload whose customer phone is the empty string while the shipping
    address has a phone. *)
Definition chk_empty_phone : ShopifyCheckout :=
  {| id := "chk_2";
     customer := Some {| customer_first_name := Some "Asha";
                         customer_last_name := None;
                         customer_phone := Some "" |};
     shipping_address := Some {| address_first_name := None;
                                 address_last_name := None;
                                 address_phone := Some "+919876543210" |};
     billing_address := None;
     completed_at := None;
     total_price := None |}.

Definition empty_world : World :=
  {| whatsappLogs := []; posted := []; statusSent := [] |}.

(** An entry with a timestamp, as the [catch] block writes them. *)
Definition prior_entry (eventId status : string) (at_ : Firestore.Value)
  : Firestore.DocumentData :=
  [("fullName", Firestore.VString "Asha");
   ("phone", Firestore.VString "+919876543210");
   ("checkoutId", Firestore.VString eventId);
   ("status", Firestore.VString status);
   ("timestamp", at_)].

Definition world_with (docs : list Firestore.DocumentData) : World :=
  {| whatsappLogs := docs; posted := []; statusSent := [] |}.

(** The same checkout once it has been completed. *)
Definition chk_done : ShopifyCheckout :=
  {| id := "chk_1";
     customer := customer chk_1;
     shipping_address := None;
     billing_address := None;
     completed_at := Some "2023-11-14T22:13:20Z";
     total_price := None |}.

(** Entries of another event for the same phone: a failure of 25 hours
    ago, an entry of one hour ago, and an entry whose timestamp is null. *)
Definition old_failure : Firestore.DocumentData :=
  prior_entry "chk_0" "failed" (Firestore.VTimestamp (t0 - 25 * hour)).

Definition recent_sent : Firestore.DocumentData :=
  prior_entry "chk_0" "accepted" (Firestore.VTimestamp (t0 - hour)).

Definition null_stamped : Firestore.DocumentData :=
  prior_entry "chk_0" "failed" Firestore.VNull.

(** Raw bodies of the deliveries; the handlers only hash them. *)
Definition raw_chk_1 : string := "{id:chk_1,...}".
Definition raw_ord_7 : string := "{id:ord_7,...}".

Definition part_000_env : Part000.ProcessEnv :=
  {| Part000.WHATSAPP_ACCESS_TOKEN := Some "token";
     Part000.WHATSAPP_PHONE_NUMBER_ID := Some "1055";
     Part000.DISCOUNT_CODE := Some "SAVE10";
     Part000.DISCOUNT_IMAGE_URL := Some "https://cdn.example/banner.png";
     Part000.SHOPIFY_SECRET_KEY := "s3cret" |}.

Definition demo_checkouts_update : Ambient -> Request -> Task unit :=
  checkouts_update demo_toString demo_hmac demo_parse demo_env.

Definition demo_orders_create : Ambient -> Request -> Task unit :=
  orders_create demo_toString demo_hmac demo_parse demo_parseFloat demo_env.

(** The collection after one more response status. *)
Definition answered (code : Z) (w : World) : World :=
  {| whatsappLogs := whatsappLogs w;
     posted := posted w;
     statusSent := statusSent w ++ [code] |}.

Section Outcome.

Variable env : ProcessEnv.

(** The post both handlers make for a message. *)
Definition message_post (messageData : MessageData) : HttpPost :=
  {| url := messages_url env;
     data := messageData;
     headers := request_headers env |}.

(** The entry [dispatch] ends up writing: the one of the [try] block when
    the post resolved and the entry is a valid document, the one of the
    [catch] block otherwise. *)
Definition dispatch_entry (amb : Ambient) (messageData : MessageData)
           (fullName sanitizedPhone checkoutId : string)
  : Firestore.DocumentData :=
  match provider amb (message_post messageData) with
  | Resolved response =>
      if Firestore.valid_document
           (sent_entry fullName sanitizedPhone checkoutId response)
      then sent_entry fullName sanitizedPhone checkoutId response
      else failed_entry amb fullName sanitizedPhone checkoutId
             (invalid_document amb
                (sent_entry fullName sanitizedPhone checkoutId response))
  | Rejected error =>
      failed_entry amb fullName sanitizedPhone checkoutId error
  end.

(** The world after a [dispatch]. *)
Definition dispatched (amb : Ambient) (messageData : MessageData)
           (fullName sanitizedPhone checkoutId : string) (w : World) : World :=
  {| whatsappLogs :=
       whatsappLogs w
       ++ [dispatch_entry amb messageData fullName sanitizedPhone checkoutId];
     posted := posted w ++ [message_post messageData];
     statusSent := statusSent w |}.

End Outcome.

(** ** The application: its two routes, and deliveries taken in turn *)

(** The routes [app.post] registers (lines 162 and 318). *)
Inductive Route :=
| CheckoutsUpdate
| OrdersCreate.

(** One delivery: the route it is posted to, what the run reads from
    outside, and the request. *)
Record Delivery := mkDelivery {
  route : Route;
  surroundings : Ambient;
  request : Request
}.

Section Application.

Variable Buffer_toString : Buffer -> string.
Variable createHmac_sha256_base64 : string -> string -> string.
Variable parsePhoneNumberFromString : string -> string -> option PhoneNumber.
Variable parseFloat_text : string -> string.
Variable env : ProcessEnv.

Definition handle (d : Delivery) : Task unit :=
  match route d with
  | CheckoutsUpdate =>
      checkouts_update Buffer_toString createHmac_sha256_base64
        parsePhoneNumberFromString env (surroundings d) (request d)
  | OrdersCreate =>
      orders_create Buffer_toString createHmac_sha256_base64
        parsePhoneNumberFromString parseFloat_text env
        (surroundings d) (request d)
  end.

(** Deliveries processed one after the other.  A run that throws ends
    that delivery only; what it did before stays done. *)
Fixpoint serve (deliveries : list Delivery) (w : World) : World :=
  match deliveries with
  | [] => w
  | d :: rest => serve rest (snd (handle d w))
  end.

End Application.

(** The instant an entry is stamped with, 0 when it has none. *)
Definition millis_of (d : Firestore.DocumentData) : Z :=
  match Firestore.field "timestamp" d with
  | Some (Firestore.VTimestamp millis) => millis
  | _ => 0
  end.

(** Every [timestamp] the entries of one phone have is a Firestore
    timestamp (as all timestamps the handlers write are). *)
Definition stamps_are_timestamps (phone : string)
           (docs : list Firestore.DocumentData) : Prop :=
  forall d v,
    In d docs ->
    Firestore.field "phone" d = Some (Firestore.VString phone) ->
    Firestore.field "timestamp" d = Some v ->
    exists millis, v = Firestore.VTimestamp millis.

(** An entry with a timestamp records a failure. *)
Definition stamped_is_failed (d : Firestore.DocumentData) : Prop :=
  Firestore.field "timestamp" d <> None ->
  Firestore.field "status" d = Some (Firestore.VString "failed").

(** A provider that accepts the message but names no status. *)
Definition statusless_ambient (now : Z) : Ambient :=
  {| new_Date := now;
     Timestamp_now := now + 1;
     provider := fun _ =>
       Resolved {| data_messages :=
                     Some [{| message_id := Js.Text "wamid.1";
                              message_status := Js.Missing |}] |};
     refusal := demo_refusal |}.

(** A provider that accepts the message and gives null as its status. *)
Definition null_status_ambient (now : Z) : Ambient :=
  {| new_Date := now;
     Timestamp_now := now + 1;
     provider := fun _ =>
       Resolved {| data_messages :=
                     Some [{| message_id := Js.Text "wamid.1";
                              message_status := Js.Null |}] |};
     refusal := demo_refusal |}.

(** A checkout whose phone does not parse, and one whose phone parses but
    is not valid. *)
Definition chk_unparsed : ShopifyCheckout :=
  {| id := "chk_3";
     customer := Some {| customer_first_name := Some "Asha";
                         customer_last_name := None;
                         customer_phone := Some "call me" |};
     shipping_address := None;
     billing_address := None;
     completed_at := None;
     total_price := None |}.

Definition chk_invalid : ShopifyCheckout :=
  {| id := "chk_4";
     customer := Some {| customer_first_name := Some "Asha";
                         customer_last_name := None;
                         customer_phone := Some "+9112" |};
     shipping_address := None;
     billing_address := None;
     completed_at := None;
     total_price := None |}.

(** A request whose body the JSON parser never read. *)
Definition bodiless (payload : ShopifyCheckout) : Request :=
  {| header_hmac := Some "anything";
     rawBody := None;
     body := payload |}.

Definition demo_serve : list Delivery -> World -> World :=
  serve demo_toString demo_hmac demo_parse demo_parseFloat demo_env.

Definition checkout_delivery (now : Z) (raw : string)
           (payload : ShopifyCheckout) : Delivery :=
  {| route := CheckoutsUpdate;
     surroundings := demo_ambient now;
     request := signed raw payload |}.

Definition order_delivery (now : Z) (raw : string)
           (payload : ShopifyCheckout) : Delivery :=
  {| route := OrdersCreate;
     surroundings := demo_ambient now;
     request := signed raw payload |}.

(** A checkout whose name properties are blank wherever they are set. *)
Definition chk_blank_names : ShopifyCheckout :=
  {| id := "chk_5";
     customer := Some {| customer_first_name := Some "  ";
                         customer_last_name := None;
                         customer_phone := Some "+919876543210" |};
     shipping_address := Some {| address_first_name := Some " ";
                                 address_last_name := Some "";
                                 address_phone := None |};
     billing_address := None;
     completed_at := None;
     total_price := None |}.

(** A delivery signed with another secret. *)
Definition forged (raw : string) (payload : ShopifyCheckout) : Request :=
  {| header_hmac := Some (demo_hmac "guess" raw);
     rawBody := Some (list_byte_of_string raw);
     body := payload |}.

(** A failure recorded for chk_1 itself, 25 hours ago. *)
Definition chk_1_failure : Firestore.DocumentData :=
  prior_entry "chk_1" "failed" (Firestore.VTimestamp (t0 - 25 * hour)).

(** A name property that is absent or holds white space only. *)
Definition blank (x : option string) : Prop :=
  Js.trim (Js.nullish_default x "") = "".

(** ** Properties of the building blocks *)

(** A run that ended without touching log or endpoint. *)
Ltac quiet := intros <-; left; split; reflexivity.

Ltac branch :=
  match goal with
  | |- context [if ?b then _ else _] => destruct b eqn:?
  | |- context [match ?x with _ => _ end] => destruct x eqn:?
  end.

Lemma failed_entry_valid amb fullName phone checkoutId error :
  Firestore.valid_document
    (failed_entry amb fullName phone checkoutId error) = true.
Proof. reflexivity. Qed.

Lemma dispatch_run env amb messageData fullName phone checkoutId w :
  dispatch env amb messageData fullName phone checkoutId w
  = (Normal tt, dispatched env amb messageData fullName phone checkoutId w).
Proof.
  unfold dispatch, dispatched, dispatch_entry, try_catch, bind, axios_post,
    message_post, add.
  destruct (provider amb _) as [response | error]; cbn [whatsappLogs posted statusSent].
  - destruct (Firestore.valid_document (sent_entry _ _ _ response)) eqn:V.
    + reflexivity.
    + rewrite failed_entry_valid. reflexivity.
  - rewrite failed_entry_valid. reflexivity.
Qed.

Lemma dispatch_entry_checkoutId env amb messageData fullName phone checkoutId :
  Firestore.field "checkoutId"
    (dispatch_entry env amb messageData fullName phone checkoutId)
  = Some (Firestore.VString checkoutId).
Proof.
  unfold dispatch_entry. repeat branch; reflexivity.
Qed.

Lemma dispatch_entry_fullName env amb messageData fullName phone checkoutId :
  Firestore.field "fullName"
    (dispatch_entry env amb messageData fullName phone checkoutId)
  = Some (Firestore.VString fullName).
Proof.
  unfold dispatch_entry. repeat branch; reflexivity.
Qed.

Lemma entries_for_app eventId docs more :
  entries_for eventId (docs ++ more)
  = (entries_for eventId docs + entries_for eventId more)%nat.
Proof.
  unfold entries_for, Firestore.where_eq.
  rewrite filter_app, length_app. reflexivity.
Qed.

Lemma entries_for_one eventId doc :
  Firestore.field "checkoutId" doc = Some (Firestore.VString eventId) ->
  entries_for eventId [doc] = 1%nat.
Proof.
  intros H. unfold entries_for, Firestore.where_eq. cbn [filter].
  rewrite H. cbn. rewrite String.eqb_refl. reflexivity.
Qed.

Lemma empty_where_eq eventId docs :
  Firestore.empty
    (Firestore.where_eq "checkoutId" (Firestore.VString eventId) docs) = true ->
  entries_for eventId docs = 0%nat.
Proof.
  unfold entries_for.
  destruct (Firestore.where_eq _ _ docs); [reflexivity | discriminate].
Qed.

Lemma docs0_timestamp_toDate_world docs w :
  snd (docs0_timestamp_toDate docs w) = w.
Proof.
  unfold docs0_timestamp_toDate. repeat branch; reflexivity.
Qed.

(** The cooldown query only sees entries that have a [timestamp]. *)
Lemma insert_desc_In name d x sorted :
  In d (Firestore.insert_desc name x sorted) -> d = x \/ In d sorted.
Proof.
  induction sorted as [|e rest IH]; cbn.
  - intros [<- | []]. now left.
  - destruct (Firestore.value_leb _ _); cbn.
    + intros [<- | H]; [now left | now right].
    + intros [<- | H]; [right; now left|].
      destruct (IH H) as [-> | H']; [now left | right; now right].
Qed.

Lemma orderBy_desc_In name docs d :
  In d (Firestore.orderBy_desc name docs)
  -> In d docs /\ Firestore.field name d <> None.
Proof.
  unfold Firestore.orderBy_desc.
  induction docs as [|e rest IH]; cbn; [intros []|].
  destruct (Firestore.field name e) eqn:F.
  - cbn. intros H. apply insert_desc_In in H as [-> | H].
    + split; [now left | congruence].
    + destruct (IH H). split; [now right | assumption].
  - intros H. destruct (IH H). split; [now right | assumption].
Qed.

Lemma limit_In n docs d :
  In d (Firestore.limit n docs) -> In d docs.
Proof.
  unfold Firestore.limit. intros H.
  rewrite <- (firstn_skipn n docs). apply in_or_app. now left.
Qed.

Lemma recentMessages_In phone docs d :
  In d (recentMessages_query phone docs) ->
  In d docs /\ Firestore.field "timestamp" d <> None.
Proof.
  unfold recentMessages_query, Firestore.where_eq.
  intros H. apply limit_In, orderBy_desc_In in H as [H T].
  apply filter_In in H as [H _]. now split.
Qed.

(** So a log of entries without timestamp, such as the entries of
    accepted messages, gives the cooldown check nothing to read. *)
Lemma unstamped_entries_are_not_recent phone docs :
  Forall (fun d => Firestore.field "timestamp" d = None) docs ->
  recentMessages_query phone docs = [].
Proof.
  intros U. destruct (recentMessages_query phone docs) as [|d rest] eqn:Q;
    [reflexivity|].
  destruct (recentMessages_In phone docs d) as [D T];
    [rewrite Q; now left|].
  rewrite Forall_forall in U. specialize (U d D). congruence.
Qed.

(** ** Properties of the handlers *)

Section Properties.

Variable Buffer_toString : Buffer -> string.
Variable createHmac_sha256_base64 : string -> string -> string.
Variable parsePhoneNumberFromString : string -> string -> option PhoneNumber.
Variable parseFloat_text : string -> string.
Variable env : ProcessEnv.

Local Abbreviation on_checkout :=
  (checkouts_update Buffer_toString createHmac_sha256_base64
     parsePhoneNumberFromString env).
Local Abbreviation on_order :=
  (orders_create Buffer_toString createHmac_sha256_base64
     parsePhoneNumberFromString parseFloat_text env).
Local Abbreviation verifies :=
  (signature_verifies Buffer_toString createHmac_sha256_base64 env).

(** Every run of the checkout handler either leaves log and endpoint as
    they were, or is one [dispatch] for a payload that passed every gate. *)
Lemma checkouts_update_outcome amb req w :
  forall r, on_checkout amb req w = r ->
  untouched w (snd r)
  \/ exists phoneNumber,
      Js.not_ (completed_at (body req)) = true
      /\ Js.not_ (rawPhone (body req)) = false
      /\ parsePhoneNumberFromString
           (Js.nullish_default (rawPhone (body req)) "") "IN"
         = Some phoneNumber
      /\ isValid phoneNumber = true
      /\ entries_for (id (body req)) (whatsappLogs w) = 0%nat
      /\ r = (Normal tt,
              dispatched env amb
                (checkout_messageData env (number phoneNumber)
                   (customerName (body req)))
                (getFullName (body req)) (number phoneNumber) (id (body req))
                (answered 200 w)).
Proof.
  intros r. unfold checkouts_update, untouched.
  destruct (Js.not_ (header_hmac req) || _)%bool; [quiet|].
  unfold bind at 1. unfold rawBody_toString.
  destruct (rawBody req) as [text|]; [|quiet].
  cbn [ret].
  destruct (negb (String.eqb _ _)); [quiet|].
  unfold bind at 1. cbn [sendStatus].
  destruct (Js.not_ (completed_at (body req))) eqn:C; cbn [negb]; [|quiet].
  destruct (Js.not_ (rawPhone (body req))) eqn:N; [quiet|].
  destruct (parsePhoneNumberFromString _ _) as [phoneNumber|] eqn:P; [|quiet].
  destruct (isValid phoneNumber) eqn:I; cbn [negb]; [|quiet].
  unfold bind at 1. cbn [get whatsappLogs].
  destruct (negb (Firestore.empty _)) eqn:E; [quiet|].
  unfold bind at 1. cbn [get whatsappLogs].
  unfold bind at 1.
  match goal with
  | |- context [docs0_timestamp_toDate ?docs ?w0] =>
      pose proof (docs0_timestamp_toDate_world docs w0) as D;
      destruct (docs0_timestamp_toDate docs w0) as [[hh|e] w']
  end; cbn [snd] in D; subst w'; [|quiet].
  destruct (_ && _)%bool; [quiet|].
  intros <-. right. exists phoneNumber. repeat split; try assumption.
  - apply empty_where_eq. now apply negb_false_iff in E.
  - apply dispatch_run.
Qed.

(** Every run of the order handler that gets past the signature, finds a
    phone and parses it as valid is one [dispatch]; every other run leaves
    log and endpoint as they were. *)
Lemma orders_create_outcome amb req w :
  forall r, on_order amb req w = r ->
  untouched w (snd r)
  \/ exists phoneNumber,
      Js.not_ (rawPhone (body req)) = false
      /\ parsePhoneNumberFromString
           (Js.nullish_default (rawPhone (body req)) "") "IN"
         = Some phoneNumber
      /\ isValid phoneNumber = true
      /\ r = (Normal tt,
              dispatched env amb
                (order_messageData env (number phoneNumber)
                   (customerName (body req)) (id (body req))
                   (parseFloat_text
                      (Js.nullish_default (total_price (body req)) "0")))
                (getFullName (body req)) (number phoneNumber) (id (body req))
                (answered 200 w)).
Proof.
  intros r. unfold orders_create, untouched.
  destruct (Js.not_ (header_hmac req) || _)%bool; [quiet|].
  unfold bind at 1. unfold rawBody_toString.
  destruct (rawBody req) as [text|]; [|quiet].
  cbn [ret].
  destruct (negb (String.eqb _ _)); [quiet|].
  unfold bind at 1. cbn [sendStatus].
  destruct (Js.not_ (rawPhone (body req))) eqn:N; [quiet|].
  destruct (parsePhoneNumberFromString _ _) as [phoneNumber|] eqn:P; [|quiet].
  destruct (isValid phoneNumber) eqn:I; cbn [negb]; [|quiet].
  intros <-. right. exists phoneNumber. repeat split; try assumption.
  apply dispatch_run.
Qed.

Lemma truthy_true_iff s : Js.truthy s = true <-> s <> "".
Proof. destruct s; cbn; split; congruence. Qed.

Lemma not_present s : s <> "" -> Js.not_ (Some s) = false.
Proof. destruct s; cbn; congruence. Qed.

(** [signature_verifies] in words. *)
Lemma signature_verifies_spec req raw :
  verifies req raw = true
  <-> exists h,
      header_hmac req = Some h /\ h <> ""
      /\ SHOPIFY_SECRET_KEY env <> ""
      /\ createHmac_sha256_base64 (SHOPIFY_SECRET_KEY env)
                 (Buffer_toString raw) = h.
Proof.
  unfold signature_verifies. split.
  - intros H. apply andb_prop in H as [H E]. apply andb_prop in H as [H S].
    destruct (header_hmac req) as [h|]; [|discriminate].
    exists h. cbn in *. apply negb_true_iff, negb_false_iff in H.
    repeat split.
    + now apply truthy_true_iff.
    + now apply truthy_true_iff.
    + now apply String.eqb_eq.
  - intros (h & -> & Hh & Hs & E). cbn.
    apply truthy_true_iff in Hh, Hs. rewrite Hh, Hs. cbn.
    now apply String.eqb_eq.
Qed.

Lemma verifies_false_cases req raw :
  verifies req raw = false ->
  (Js.not_ (header_hmac req)
   || negb (Js.truthy (SHOPIFY_SECRET_KEY env)))%bool = true
  \/ ((Js.not_ (header_hmac req)
       || negb (Js.truthy (SHOPIFY_SECRET_KEY env)))%bool = false
      /\ negb (String.eqb
                 (createHmac_sha256_base64 (SHOPIFY_SECRET_KEY env)
                 (Buffer_toString raw))
                 (Js.nullish_default (header_hmac req) "")) = true).
Proof.
  unfold signature_verifies.
  destruct (Js.not_ (header_hmac req)); cbn; [now left|].
  destruct (Js.truthy (SHOPIFY_SECRET_KEY env)); cbn; [|now left].
  intros ->. now right.
Qed.

Lemma verifies_true_cases req raw :
  verifies req raw = true ->
  (Js.not_ (header_hmac req)
   || negb (Js.truthy (SHOPIFY_SECRET_KEY env)))%bool = false
  /\ negb (String.eqb
             (createHmac_sha256_base64 (SHOPIFY_SECRET_KEY env)
                 (Buffer_toString raw))
             (Js.nullish_default (header_hmac req) "")) = false.
Proof.
  unfold signature_verifies. intros H.
  apply andb_prop in H as [H E]. apply andb_prop in H as [H S].
  rewrite E. apply negb_true_iff in H. rewrite H, S. now split.
Qed.

(** Without a passing signature both handlers answer 403 and stop. *)
Lemma checkouts_update_rejects amb req w raw :
  rawBody req = Some raw -> verifies req raw = false ->
  on_checkout amb req w = (Normal tt, answered 403 w).
Proof.
  intros R V. unfold checkouts_update.
  destruct (verifies_false_cases _ _ V) as [H | [H E]]; rewrite H.
  - reflexivity.
  - unfold bind at 1. unfold rawBody_toString. rewrite R. cbn [ret].
    rewrite E. reflexivity.
Qed.

Lemma orders_create_rejects amb req w raw :
  rawBody req = Some raw -> verifies req raw = false ->
  on_order amb req w = (Normal tt, answered 403 w).
Proof.
  intros R V. unfold orders_create.
  destruct (verifies_false_cases _ _ V) as [H | [H E]]; rewrite H.
  - reflexivity.
  - unfold bind at 1. unfold rawBody_toString. rewrite R. cbn [ret].
    rewrite E. reflexivity.
Qed.

(** What is left of the checkout handler once 200 has been sent. *)
Lemma checkouts_update_accepts amb req w raw :
  rawBody req = Some raw -> verifies req raw = true ->
  on_checkout amb req w
  = (let checkout := body req in
     if negb (Js.not_ (completed_at checkout)) then ret tt
     else if Js.not_ (rawPhone checkout) then ret tt
     else
       match parsePhoneNumberFromString
               (Js.nullish_default (rawPhone checkout) "") "IN" with
       | None => ret tt
       | Some phoneNumber =>
           if negb (isValid phoneNumber) then ret tt
           else
             existing <- get (Firestore.where_eq "checkoutId"
                                (Firestore.VString (id checkout))) ;;
             if negb (Firestore.empty existing) then ret tt
             else
               recentMessages <-
                 get (recentMessages_query (number phoneNumber)) ;;
               hh <- docs0_timestamp_toDate recentMessages ;;
               if negb (Firestore.empty recentMessages)
                  && (new_Date amb - hh <? 24 * 60 * 60 * 1000)
               then ret tt
               else
                 dispatch env amb
                   (checkout_messageData env (number phoneNumber)
                      (customerName checkout))
                   (getFullName checkout) (number phoneNumber) (id checkout)
       end) (answered 200 w).
Proof.
  intros R V. unfold checkouts_update.
  destruct (verifies_true_cases _ _ V) as [H E]. rewrite H.
  unfold bind at 1. unfold rawBody_toString. rewrite R. cbn [ret].
  rewrite E. reflexivity.
Qed.

Lemma orders_create_accepts amb req w raw :
  rawBody req = Some raw -> verifies req raw = true ->
  on_order amb req w
  = (let checkout := body req in
     if Js.not_ (rawPhone checkout) then ret tt
     else
       match parsePhoneNumberFromString
               (Js.nullish_default (rawPhone checkout) "") "IN" with
       | None => ret tt
       | Some phoneNumber =>
           if negb (isValid phoneNumber) then ret tt
           else
             dispatch env amb
               (order_messageData env (number phoneNumber)
                  (customerName checkout) (id checkout)
                  (parseFloat_text
                     (Js.nullish_default (total_price checkout) "0")))
               (getFullName checkout) (number phoneNumber) (id checkout)
       end) (answered 200 w).
Proof.
  intros R V. unfold orders_create.
  destruct (verifies_true_cases _ _ V) as [H E]. rewrite H.
  unfold bind at 1. unfold rawBody_toString. rewrite R. cbn [ret].
  rewrite E. reflexivity.
Qed.

(** No step after the response sends another status. *)
Lemma checkouts_update_status_kept amb req w raw :
  rawBody req = Some raw -> verifies req raw = true ->
  statusSent (snd (on_checkout amb req w)) = (statusSent w ++ [200])%list.
Proof.
  intros R V. rewrite (checkouts_update_accepts amb req w raw R V). cbv zeta.
  repeat (first [rewrite dispatch_run | unfold bind at 1; cbn [get]
                 | branch]); try reflexivity.
  all: match goal with
       | H : docs0_timestamp_toDate ?d ?w0 = _ |- _ =>
           pose proof (docs0_timestamp_toDate_world d w0) as D;
           rewrite H in D; cbn [snd] in D; subst; reflexivity
       end.
Qed.

Lemma orders_create_status_kept amb req w raw :
  rawBody req = Some raw -> verifies req raw = true ->
  statusSent (snd (on_order amb req w)) = (statusSent w ++ [200])%list.
Proof.
  intros R V. rewrite (orders_create_accepts amb req w raw R V). cbv zeta.
  repeat (first [rewrite dispatch_run | branch]); reflexivity.
Qed.



(** C6, as the code has it: a checkout-update event whose [completed_at]
    is set (a non-empty string) is never dispatched and never logged,
    whatever the signature, the log and the provider.  The order-create
    handler does not read [completed_at]. *)
Theorem completed_checkout_is_ignored amb req w stamp :
  completed_at (body req) = Some stamp ->
  stamp <> "" ->
  untouched w (snd (on_checkout amb req w)).
Proof.
  intros S NE. pose proof (not_present stamp NE) as C. rewrite <- S in C.
  destruct (checkouts_update_outcome amb req w _ eq_refl)
    as [U | (p & C' & _)]; [exact U | congruence].
Qed.

Lemma first_present_sources checkout :
  rawPhone checkout = first_present (phone_sources checkout).
Proof.
  unfold rawPhone, phone_sources, Js.nullish_or. cbn [first_present].
  repeat branch; congruence.
Qed.

(** C8, as the code has it: the raw phone is the first of customer,
    shipping and billing phone that is present, an empty string included;
    and when that value is absent or empty, neither handler sends a
    notification or writes a log entry. *)
Theorem raw_phone_resolution amb req w :
  rawPhone (body req) = first_present (phone_sources (body req))
  /\ (Js.not_ (rawPhone (body req)) = true ->
      untouched w (snd (on_checkout amb req w))
      /\ untouched w (snd (on_order amb req w))).
Proof.
  split; [apply first_present_sources|].
  intros N. split.
  - destruct (checkouts_update_outcome amb req w _ eq_refl)
      as [U | (p & _ & N' & _)]; [exact U | congruence].
  - destruct (orders_create_outcome amb req w _ eq_refl)
      as [U | (p & N' & _)]; [exact U | congruence].
Qed.

(** When all three phones are absent or empty, so is the resolved one. *)
Lemma no_phone_anywhere checkout :
  Forall (fun source => Js.not_ source = true) (phone_sources checkout) ->
  Js.not_ (rawPhone checkout) = true.
Proof.
  rewrite first_present_sources. generalize (phone_sources checkout).
  induction 1 as [|source rest H _ IH]; [reflexivity|].
  destruct source; [exact H | exact IH].
Qed.

(** C3, what the code does: a verified, not completed checkout with a
    valid phone, processed on an empty log, gets its 200 and then throws
    the [TypeError] of [docs[0].data()]: nothing is posted and nothing is
    logged. *)
Theorem first_checkout_throws amb req w raw phone phoneNumber :
  rawBody req = Some raw ->
  verifies req raw = true ->
  completed_at (body req) = None ->
  rawPhone (body req) = Some phone ->
  phone <> "" ->
  parsePhoneNumberFromString phone "IN" = Some phoneNumber ->
  isValid phoneNumber = true ->
  whatsappLogs w = [] ->
  on_checkout amb req w
  = (Thrown (Js.TypeError
               "Cannot read properties of undefined (reading 'data')"),
     answered 200 w).
Proof.
  intros R V C RP NE P I L.
  rewrite (checkouts_update_accepts amb req w raw R V). cbv zeta.
  rewrite C, RP, (not_present phone NE). cbn [Js.not_ Js.nullish_default negb].
  rewrite P, I. cbn [negb].
  unfold bind at 1. cbn [get answered whatsappLogs]. rewrite L.
  cbn [Firestore.where_eq filter Firestore.empty negb].
  unfold bind at 1. cbn [get answered whatsappLogs]. rewrite L.
  reflexivity.
Qed.

(** C5, what the code does: when the cooldown query returns an entry
    whose [timestamp] is missing or null, the checkout handler throws at
    [timestamp.toDate()]: nothing is posted and nothing is logged. *)
Theorem unset_timestamp_throws amb req w raw phone phoneNumber d rest :
  rawBody req = Some raw ->
  verifies req raw = true ->
  completed_at (body req) = None ->
  rawPhone (body req) = Some phone ->
  phone <> "" ->
  parsePhoneNumberFromString phone "IN" = Some phoneNumber ->
  isValid phoneNumber = true ->
  entries_for (id (body req)) (whatsappLogs w) = 0%nat ->
  recentMessages_query (number phoneNumber) (whatsappLogs w) = d :: rest ->
  Firestore.field "timestamp" d = None
  \/ Firestore.field "timestamp" d = Some Firestore.VNull ->
  exists e,
    on_checkout amb req w = (Thrown e, answered 200 w).
Proof.
  intros R V C RP NE P I E Q T.
  rewrite (checkouts_update_accepts amb req w raw R V). cbv zeta.
  rewrite C, RP, (not_present phone NE). cbn [Js.not_ Js.nullish_default negb].
  rewrite P, I. cbn [negb].
  unfold bind at 1. cbn [get answered whatsappLogs].
  unfold entries_for in E. apply length_zero_iff_nil in E. rewrite E.
  cbn [Firestore.empty negb].
  unfold bind at 1. cbn [get answered whatsappLogs]. rewrite Q.
  unfold bind at 1. unfold docs0_timestamp_toDate.
  destruct T as [-> | ->]; eexists; reflexivity.
Qed.

(** C4, what the code writes: a post that resolves with a message id and
    a status is recorded by one entry that holds the id but has no
    [timestamp] field; a post that is rejected is recorded by one entry
    with status "failed", the error text and a timestamp. *)
Theorem dispatch_entries amb messageData fullName phone checkoutId w :
  (forall response m mid st,
      provider amb (message_post env messageData) = Resolved response ->
      first_message response = Some m ->
      message_id m = Js.Text mid ->
      message_status m = Js.Text st ->
      exists entry,
        whatsappLogs
          (snd (dispatch env amb messageData fullName phone checkoutId w))
        = (whatsappLogs w ++ [entry])%list
        /\ Firestore.field "messageId" entry = Some (Firestore.VString mid)
        /\ Firestore.field "status" entry = Some (Firestore.VString st)
        /\ Firestore.field "timestamp" entry = None)
  /\ (forall error,
         provider amb (message_post env messageData) = Rejected error ->
         exists entry,
           whatsappLogs
             (snd (dispatch env amb messageData fullName phone checkoutId w))
           = (whatsappLogs w ++ [entry])%list
           /\ Firestore.field "status" entry
              = Some (Firestore.VString "failed")
           /\ Firestore.field "error" entry
              = Some (Firestore.VString (errorMsg error))
           /\ Firestore.field "timestamp" entry
              = Some (Firestore.VTimestamp (Timestamp_now amb))).
Proof.
  rewrite dispatch_run. unfold dispatched, dispatch_entry. cbn [snd whatsappLogs].
  split.
  - intros response m mid st -> M I S.
    exists (sent_entry fullName phone checkoutId response).
    unfold sent_entry. rewrite M. cbn. rewrite I, S. cbn.
    repeat split; reflexivity.
  - intros error ->.
    exists (failed_entry amb fullName phone checkoutId error).
    repeat split; reflexivity.
Qed.

(** C2, as the code has it: the order handler never reads the log.  A
    verified order event with a valid phone is posted once and recorded
    once, whatever entries the log already holds. *)
Theorem verified_order_is_dispatched amb req w raw phone phoneNumber :
  rawBody req = Some raw ->
  verifies req raw = true ->
  rawPhone (body req) = Some phone ->
  phone <> "" ->
  parsePhoneNumberFromString phone "IN" = Some phoneNumber ->
  isValid phoneNumber = true ->
  exists post entry,
    on_order amb req w
    = (Normal tt,
       {| whatsappLogs := whatsappLogs w ++ [entry];
          posted := posted w ++ [post];
          statusSent := statusSent w ++ [200] |})
    /\ to (data post) = number phoneNumber
    /\ Firestore.field "checkoutId" entry
       = Some (Firestore.VString (id (body req))).
Proof.
  intros R V RP NE P I.
  rewrite (orders_create_accepts amb req w raw R V). cbv zeta.
  rewrite RP, (not_present phone NE). cbn [Js.nullish_default].
  rewrite P, I. cbn [negb]. rewrite dispatch_run.
  eexists. eexists. split; [reflexivity|]. split; [reflexivity|].
  apply dispatch_entry_checkoutId.
Qed.

(** One delivery to the checkout handler adds an entry for its event id
    only when the log had none. *)
Lemma checkouts_update_log_step amb req w :
  entries_for (id (body req)) (whatsappLogs (snd (on_checkout amb req w)))
  = entries_for (id (body req)) (whatsappLogs w)
  \/ (entries_for (id (body req)) (whatsappLogs w) = 0%nat
      /\ entries_for (id (body req))
           (whatsappLogs (snd (on_checkout amb req w))) = 1%nat).
Proof.
  destruct (checkouts_update_outcome amb req w _ eq_refl)
    as [[U _] | (p & _ & _ & _ & _ & E & ->)].
  - left. now rewrite U.
  - right. split; [exact E|].
    cbn [snd dispatched whatsappLogs answered].
    rewrite entries_for_app, E.
    apply entries_for_one, dispatch_entry_checkoutId.
Qed.

(** C1, as the code has it: two deliveries of one event id to the
    checkout-update endpoint, processed one after the other on a log that
    holds at most one entry for that id, leave at most one entry for it. *)
Theorem checkout_redelivery_logged_once amb1 amb2 req1 req2 w :
  id (body req1) = id (body req2) ->
  (entries_for (id (body req1)) (whatsappLogs w) <= 1)%nat ->
  (entries_for (id (body req1))
     (whatsappLogs
        (snd (on_checkout amb2 req2 (snd (on_checkout amb1 req1 w)))))
   <= 1)%nat.
Proof.
  intros S Z0.
  pose proof (checkouts_update_log_step amb1 req1 w) as H1.
  pose proof (checkouts_update_log_step amb2 req2
                (snd (on_checkout amb1 req1 w))) as H2.
  rewrite <- S in H2. lia.
Qed.

(** In both handlers every message posted is the template message built
    from the phone, [customer.first_name] or else "there", and (for an
    order) the id and the amount, with that name as the first text of its
    body, whatever the shipping and billing names are; every entry logged
    carries the result of [getFullName] as its [fullName]. *)
Lemma posts_and_entries_carry_the_names amb req w :
  (forall handler,
      handler = on_checkout \/ handler = on_order ->
      exists posts entries,
        posted (snd (handler amb req w)) = (posted w ++ posts)%list
        /\ whatsappLogs (snd (handler amb req w))
           = (whatsappLogs w ++ entries)%list
        /\ Forall (fun p =>
                     nth_error (body_texts (data p)) 0
                     = Some (Some (customerName (body req)))
                     /\ (data p
                         = checkout_messageData env (to (data p))
                             (customerName (body req))
                         \/ data p
                            = order_messageData env (to (data p))
                                (customerName (body req)) (id (body req))
                                (parseFloat_text
                                   (Js.nullish_default
                                      (total_price (body req)) "0"))))
                  posts
        /\ Forall (fun d =>
                     Firestore.field "fullName" d
                     = Some (Firestore.VString (getFullName (body req))))
                  entries)
  /\ customerName (body req)
     = match customer (body req) with
       | Some c => match customer_first_name c with
                   | Some first_name => first_name
                   | None => "there"
                   end
       | None => "there"
       end
  /\ exists checkout, customerName checkout <> getFullName checkout.
Proof.
  split; [|split].
  - intros handler [-> | ->].
    + destruct (checkouts_update_outcome amb req w _ eq_refl)
        as [[L P] | (p & _ & _ & _ & _ & _ & ->)].
      * exists [], []. rewrite L, P, !app_nil_r. repeat split; constructor.
      * eexists [_], [_]. cbn [snd dispatched whatsappLogs posted answered].
        repeat split; constructor; try constructor;
          [reflexivity | now left | apply dispatch_entry_fullName].
    + destruct (orders_create_outcome amb req w _ eq_refl)
        as [[L P] | (p & _ & _ & _ & ->)].
      * exists [], []. rewrite L, P, !app_nil_r. repeat split; constructor.
      * eexists [_], [_]. cbn [snd dispatched whatsappLogs posted answered].
        repeat split; constructor; try constructor;
          [reflexivity | now right | apply dispatch_entry_fullName].
  - unfold customerName, Js.opt_chain, Js.nullish_default.
    destruct (customer (body req)); reflexivity.
  - exists order_7. cbv. discriminate.
Qed.

End Properties.

(** ** The scenarios of the specification, run on the concrete
    configuration *)

(** The earlier copy of the handler has the same unguarded read: chk_1
    on an empty log throws there too. *)
Lemma part_000_throws_on_empty_log :
  Part000.checkouts_update demo_toString demo_hmac demo_parse part_000_env
    (demo_ambient t0) (signed raw_chk_1 chk_1) empty_world
  = (Thrown (Js.TypeError
               "Cannot read properties of undefined (reading 'data')"),
     answered 200 empty_world).
Proof. reflexivity. Qed.

(** When the provider rejects the post, the entry written is the one of
    the [catch] block, with the provider's answer and a timestamp. *)
Lemma rejected_checkout_is_logged_as_failed :
  whatsappLogs
    (snd (demo_checkouts_update (failing_ambient t0) (signed raw_chk_1 chk_1)
            (world_with [old_failure])))
  = [old_failure;
     [("fullName", Firestore.VString "Asha");
      ("phone", Firestore.VString "+919876543210");
      ("checkoutId", Firestore.VString "chk_1");
      ("status", Firestore.VString "failed");
      ("timestamp", Firestore.VTimestamp (t0 + 1));
      ("error", Firestore.VString "(#131030) not in allowed list")]].
Proof. reflexivity. Qed.

(** An answer without [message_status] makes [add] refuse the entry of
    the [try] block, and the [catch] block records a failure. *)
Lemma accepted_without_status_is_logged_as_failed :
  let amb :=
    {| new_Date := t0;
       Timestamp_now := t0 + 1;
       provider := fun _ =>
         Resolved {| data_messages :=
                       Some [{| message_id := Js.Text "wamid.1";
                                message_status := Js.Missing |}] |};
       refusal := demo_refusal |} in
  map (Firestore.field "status")
    (whatsappLogs
       (snd (demo_orders_create amb (signed raw_ord_7 order_7) empty_world)))
  = [Some (Firestore.VString "failed")].
Proof. reflexivity. Qed.

(** With a failure of 25 hours ago in the log, chk_1 is dispatched: the
    entry written holds the message id and no timestamp. *)
Lemma checkout_after_cooldown_is_dispatched :
  whatsappLogs
    (snd (demo_checkouts_update (demo_ambient t0) (signed raw_chk_1 chk_1)
            (world_with [old_failure])))
  = [old_failure;
     [("fullName", Firestore.VString "Asha");
      ("phone", Firestore.VString "+919876543210");
      ("messageId", Firestore.VString "wamid.1");
      ("checkoutId", Firestore.VString "chk_1");
      ("status", Firestore.VString "accepted")]].
Proof. reflexivity. Qed.


(** The same request without its signature header, and with the
    signature of another body: 403 from both endpoints, and nothing
    else. *)
Lemma unsigned_request_is_rejected :
  demo_checkouts_update (demo_ambient t0) (unsigned raw_chk_1 chk_1)
    (world_with [old_failure])
  = (Normal tt, answered 403 (world_with [old_failure]))
  /\ demo_orders_create (demo_ambient t0)
       {| header_hmac := Some (demo_hmac "s3cret" raw_ord_7);
          rawBody := Some (list_byte_of_string raw_chk_1);
          body := chk_1 |} (world_with [old_failure])
     = (Normal tt, answered 403 (world_with [old_failure])).
Proof. split; reflexivity. Qed.

(** The completed checkout is dropped even when the cooldown has run
    out. *)
Lemma completed_checkout_is_ignored_witness :
  untouched (world_with [old_failure])
    (snd (demo_checkouts_update (demo_ambient t0) (signed raw_chk_1 chk_done)
            (world_with [old_failure]))).
Proof.
  apply (completed_checkout_is_ignored demo_toString demo_hmac demo_parse
           demo_env (demo_ambient t0) (signed raw_chk_1 chk_done)
           (world_with [old_failure]) "2023-11-14T22:13:20Z");
    [reflexivity | discriminate].
Defined.

(** C6 fails on the order endpoint: the verified order ord_7 has
    [completed_at] set, and is posted and logged all the same. *)
Lemma completed_order_is_dispatched :
  completed_at order_7 = Some "2023-11-14T22:13:20Z"
  /\ signature_verifies demo_toString demo_hmac demo_env (signed raw_ord_7 order_7) (list_byte_of_string raw_ord_7)
     = true
  /\ ~ untouched empty_world
         (snd (demo_orders_create (demo_ambient t0) (signed raw_ord_7 order_7)
                 empty_world)).
Proof.
  split; [reflexivity|]. split; [reflexivity|].
  intros [L _]. vm_compute in L. discriminate L.
Qed.

(** With an empty customer phone nothing is sent, although the shipping
    address has a phone. *)
Lemma raw_phone_resolution_witness :
  untouched (world_with [old_failure])
    (snd (demo_checkouts_update (demo_ambient t0)
            (signed raw_chk_1 chk_empty_phone) (world_with [old_failure])))
  /\ untouched (world_with [old_failure])
       (snd (demo_orders_create (demo_ambient t0)
               (signed raw_chk_1 chk_empty_phone) (world_with [old_failure]))).
Proof.
  apply (proj2 (raw_phone_resolution demo_toString demo_hmac demo_parse demo_parseFloat
                  demo_env (demo_ambient t0)
                  (signed raw_chk_1 chk_empty_phone)
                  (world_with [old_failure]))).
  reflexivity.
Defined.

(** C8 fails as stated: the first non-empty phone of this payload is the
    shipping phone, but the handlers resolve the empty customer phone. *)
Lemma empty_customer_phone_is_not_skipped :
  first_non_empty (phone_sources chk_empty_phone) = Some "+919876543210"
  /\ rawPhone chk_empty_phone = Some ""
  /\ rawPhone chk_empty_phone <> first_non_empty (phone_sources chk_empty_phone).
Proof.
  split; [reflexivity|]. split; [reflexivity|]. cbv. discriminate.
Qed.

(** The scenario of the specification: chk_1, signed, on an empty log. *)
Lemma first_checkout_throws_witness :
  demo_checkouts_update (demo_ambient t0) (signed raw_chk_1 chk_1) empty_world
  = (Thrown (Js.TypeError
               "Cannot read properties of undefined (reading 'data')"),
     answered 200 empty_world).
Proof.
  apply (first_checkout_throws demo_toString demo_hmac demo_parse demo_env
           (demo_ambient t0) (signed raw_chk_1 chk_1) empty_world
           (list_byte_of_string raw_chk_1) "+919876543210"
           {| number := "+919876543210"; isValid := true |});
    first [reflexivity | discriminate].
Defined.

(** chk_1 when the only entry for its phone has a null timestamp. *)
Lemma unset_timestamp_throws_witness :
  exists e,
    demo_checkouts_update (demo_ambient t0) (signed raw_chk_1 chk_1)
      (world_with [null_stamped])
    = (Thrown e, answered 200 (world_with [null_stamped])).
Proof.
  apply (unset_timestamp_throws demo_toString demo_hmac demo_parse demo_env
           (demo_ambient t0) (signed raw_chk_1 chk_1)
           (world_with [null_stamped]) (list_byte_of_string raw_chk_1)
           "+919876543210"
           {| number := "+919876543210"; isValid := true |}
           null_stamped []);
    first [reflexivity | discriminate | right; reflexivity].
Defined.

(** The entry of an accepted message has no timestamp; the entry of a
    rejected one has. *)
Lemma dispatch_entries_witness :
  (exists entry,
      whatsappLogs
        (snd (dispatch demo_env (demo_ambient t0)
                (checkout_messageData demo_env "+919876543210" "Asha")
                "Asha" "+919876543210" "chk_1" empty_world))
      = [entry]
      /\ Firestore.field "messageId" entry
         = Some (Firestore.VString "wamid.1")
      /\ Firestore.field "status" entry = Some (Firestore.VString "accepted")
      /\ Firestore.field "timestamp" entry = None)
  /\ (exists entry,
         whatsappLogs
           (snd (dispatch demo_env (failing_ambient t0)
                   (checkout_messageData demo_env "+919876543210" "Asha")
                   "Asha" "+919876543210" "chk_1" empty_world))
         = [entry]
         /\ Firestore.field "status" entry = Some (Firestore.VString "failed")
         /\ Firestore.field "error" entry
            = Some (Firestore.VString "(#131030) not in allowed list")
         /\ Firestore.field "timestamp" entry
            = Some (Firestore.VTimestamp (t0 + 1))).
Proof.
  split.
  - apply (proj1 (dispatch_entries demo_env (demo_ambient t0)
                    (checkout_messageData demo_env "+919876543210" "Asha")
                    "Asha" "+919876543210" "chk_1" empty_world)
             accepted
             {| message_id := Js.Text "wamid.1";
                message_status := Js.Text "accepted" |}
             "wamid.1" "accepted");
      reflexivity.
  - apply (proj2 (dispatch_entries demo_env (failing_ambient t0)
                    (checkout_messageData demo_env "+919876543210" "Asha")
                    "Asha" "+919876543210" "chk_1" empty_world)
             {| Js.response_data := Some "(#131030) not in allowed list";
                Js.message := "Request failed with status code 400" |}).
    reflexivity.
Defined.

(** The order of the specification's scenario, one hour after an entry
    for the same phone. *)
Lemma verified_order_is_dispatched_witness :
  exists post entry,
    demo_orders_create (demo_ambient t0) (signed raw_ord_7 order_7)
      (world_with [recent_sent])
    = (Normal tt,
       {| whatsappLogs := [recent_sent; entry];
          posted := [post];
          statusSent := [200] |})
    /\ to (data post) = "+919876543210"
    /\ Firestore.field "checkoutId" entry = Some (Firestore.VString "ord_7").
Proof.
  apply (verified_order_is_dispatched demo_toString demo_hmac demo_parse demo_parseFloat
           demo_env (demo_ambient t0) (signed raw_ord_7 order_7)
           (world_with [recent_sent]) (list_byte_of_string raw_ord_7)
           "+919876543210"
           {| number := "+919876543210"; isValid := true |});
    first [reflexivity | discriminate].
Defined.

(** C2 fails on the code: the log holds an entry for the phone of ord_7
    stamped one hour before, under another event id, and the verified
    order is posted and logged. *)
Lemma order_within_cooldown_is_dispatched :
  Firestore.field "phone" recent_sent
  = Some (Firestore.VString "+919876543210")
  /\ Firestore.field "timestamp" recent_sent
     = Some (Firestore.VTimestamp (new_Date (demo_ambient t0) - hour))
  /\ signature_verifies demo_toString demo_hmac demo_env (signed raw_ord_7 order_7) (list_byte_of_string raw_ord_7)
     = true
  /\ ~ untouched (world_with [recent_sent])
         (snd (demo_orders_create (demo_ambient t0) (signed raw_ord_7 order_7)
                 (world_with [recent_sent]))).
Proof.
  repeat (split; [reflexivity|]).
  intros [L _]. vm_compute in L. discriminate L.
Qed.

(** chk_1 delivered twice, five minutes apart, when the cooldown of its
    phone has run out: the first delivery is dispatched and logged, the
    second is stopped by the first one's entry. *)
Lemma checkout_redelivery_logged_once_witness :
  (entries_for "chk_1"
     (whatsappLogs
        (snd (demo_checkouts_update (demo_ambient (t0 + 300000))
                (signed raw_chk_1 chk_1)
                (snd (demo_checkouts_update (demo_ambient t0)
                        (signed raw_chk_1 chk_1)
                        (world_with [old_failure]))))))
   <= 1)%nat.
Proof.
  apply (checkout_redelivery_logged_once demo_toString demo_hmac demo_parse demo_env
           (demo_ambient t0) (demo_ambient (t0 + 300000))
           (signed raw_chk_1 chk_1) (signed raw_chk_1 chk_1)
           (world_with [old_failure]));
    [reflexivity | vm_compute; lia].
Defined.

(** C1 fails on the order endpoint: the verified order ord_7 delivered
    twice to an empty log leaves two entries for its id. *)
Lemma order_redelivery_logged_twice :
  signature_verifies demo_toString demo_hmac demo_env (signed raw_ord_7 order_7) (list_byte_of_string raw_ord_7)
  = true
  /\ ~ (entries_for "ord_7"
          (whatsappLogs
             (snd (demo_orders_create (demo_ambient (t0 + 300000))
                     (signed raw_ord_7 order_7)
                     (snd (demo_orders_create (demo_ambient t0)
                             (signed raw_ord_7 order_7) empty_world)))))
        <= 1)%nat.
Proof.
  split; [reflexivity|]. vm_compute. lia.
Qed.

(** ** [getFullName] and [trim] *)

Lemma trimEnd_cons c r :
  Js.trimEnd (String c r)
  = match Js.trimEnd r with
    | EmptyString =>
        if Js.is_white_space c then EmptyString else String c EmptyString
    | r' => String c r'
    end.
Proof. reflexivity. Qed.

Lemma trimEnd_idempotent s : Js.trimEnd (Js.trimEnd s) = Js.trimEnd s.
Proof.
  induction s as [|c r IH]; [reflexivity|].
  rewrite trimEnd_cons. destruct (Js.trimEnd r) as [|d r'] eqn:E.
  - destruct (Js.is_white_space c) eqn:W; [reflexivity|].
    rewrite trimEnd_cons. cbn [Js.trimEnd]. now rewrite W.
  - rewrite trimEnd_cons, IH. reflexivity.
Qed.

Lemma trimStart_head s :
  Js.trimStart s = ""
  \/ exists c r, Js.trimStart s = String c r /\ Js.is_white_space c = false.
Proof.
  induction s as [|c r IH]; [now left|].
  cbn [Js.trimStart]. destruct (Js.is_white_space c) eqn:W; [exact IH|].
  right. now exists c, r.
Qed.

Lemma trimEnd_keeps_head c r :
  Js.is_white_space c = false ->
  exists r', Js.trimEnd (String c r) = String c r'.
Proof.
  intros W. cbn [Js.trimEnd]. destruct (Js.trimEnd r).
  - rewrite W. now exists "".
  - now eexists.
Qed.

Lemma trim_idempotent s : Js.trim (Js.trim s) = Js.trim s.
Proof.
  unfold Js.trim.
  destruct (trimStart_head s) as [-> | (c & r & -> & W)]; [reflexivity|].
  destruct (trimEnd_keeps_head c r W) as [r' E].
  rewrite E. cbn [Js.trimStart]. rewrite W, <- E.
  apply trimEnd_idempotent.
Qed.

Lemma trimEnd_space s : Js.trimEnd (s ++ " ") = Js.trimEnd s.
Proof.
  induction s as [|c r IH]; [reflexivity|].
  cbn [append Js.trimEnd]. now rewrite IH.
Qed.

Lemma trim_space_after s : Js.trim (s ++ " ") = Js.trim s.
Proof.
  unfold Js.trim. induction s as [|c r IH]; [reflexivity|].
  cbn [append Js.trimStart]. destruct (Js.is_white_space c); [exact IH|].
  exact (trimEnd_space (String c r)).
Qed.

Lemma trim_empty_iff s : Js.trim s = "" <-> Js.trimStart s = "".
Proof.
  unfold Js.trim. split; [|now intros ->].
  destruct (trimStart_head s) as [-> | (c & r & -> & W)]; [reflexivity|].
  destruct (trimEnd_keeps_head c r W) as [r' ->]. discriminate.
Qed.

Lemma trimStart_blank_prefix a t :
  Js.trimStart a = "" -> Js.trimStart (a ++ t) = Js.trimStart t.
Proof.
  induction a as [|c r IH]; [reflexivity|].
  cbn [append Js.trimStart]. destruct (Js.is_white_space c); [exact IH|].
  discriminate.
Qed.

Lemma full_name_of_blank first last :
  blank first -> blank last -> full_name_of first last = "".
Proof.
  unfold blank, full_name_of. intros F L.
  apply trim_empty_iff in F. apply trim_empty_iff.
  rewrite (trimStart_blank_prefix _ _ F). cbn [append Js.trimStart].
  change (Js.is_white_space " ") with true. cbv iota.
  now apply trim_empty_iff.
Qed.

Lemma full_name_of_first_only first :
  full_name_of (Some first) None = Js.trim first.
Proof.
  unfold full_name_of. cbn [Js.nullish_default].
  change (first ++ " " ++ "") with (first ++ " ").
  apply trim_space_after.
Qed.

Lemma full_name_of_trimmed first last :
  Js.trim (full_name_of first last) = full_name_of first last.
Proof. apply trim_idempotent. Qed.

(** X1: [getFullName] never returns the empty string. *)
Theorem getFullName_not_empty checkout : getFullName checkout <> "".
Proof.
  unfold getFullName. cbv zeta.
  repeat match goal with
         | |- context [if Js.truthy ?n then _ else _] =>
             let T := fresh "T" in
             destruct (Js.truthy n) eqn:T; [now apply truthy_true_iff|]
         end.
  discriminate.
Qed.

(** X2: the result of [getFullName] has no white space at either end:
    trimming it again changes nothing. *)
Theorem getFullName_is_trimmed checkout :
  Js.trim (getFullName checkout) = getFullName checkout.
Proof.
  unfold getFullName. cbv zeta.
  repeat match goal with
         | |- context [if Js.truthy ?n then _ else _] =>
             destruct (Js.truthy n); [apply full_name_of_trimmed|]
         end.
  reflexivity.
Qed.

(** X3: when the first and last names of customer, shipping address and
    billing address are all absent or white space only, [getFullName]
    returns "Unknown User". *)
Theorem getFullName_of_blank_names checkout :
  blank (Js.opt_chain (customer checkout) customer_first_name) ->
  blank (Js.opt_chain (customer checkout) customer_last_name) ->
  blank (Js.opt_chain (shipping_address checkout) address_first_name) ->
  blank (Js.opt_chain (shipping_address checkout) address_last_name) ->
  blank (Js.opt_chain (billing_address checkout) address_first_name) ->
  blank (Js.opt_chain (billing_address checkout) address_last_name) ->
  getFullName checkout = "Unknown User".
Proof.
  intros C1 C2 S1 S2 B1 B2. unfold getFullName. cbv zeta.
  rewrite (full_name_of_blank _ _ C1 C2), (full_name_of_blank _ _ S1 S2),
    (full_name_of_blank _ _ B1 B2).
  reflexivity.
Qed.

(** X4: a customer with a first name that is not blank and no last name
    is named by the trimmed first name alone, whatever the addresses
    hold. *)
Theorem getFullName_first_name_only checkout c first :
  customer checkout = Some c ->
  customer_first_name c = Some first ->
  customer_last_name c = None ->
  Js.trim first <> "" ->
  getFullName checkout = Js.trim first.
Proof.
  intros C F L NB. unfold getFullName. cbv zeta.
  rewrite C. cbn [Js.opt_chain]. rewrite F, L.
  rewrite full_name_of_first_only.
  apply truthy_true_iff in NB. now rewrite NB.
Qed.

(** ** The cooldown query returns the latest stamped entry of the phone *)

Lemma insert_desc_keeps name d x sorted :
  d = x \/ In d sorted -> In d (Firestore.insert_desc name x sorted).
Proof.
  induction sorted as [|e rest IH]; cbn.
  - intros [-> | []]. now left.
  - destruct (Firestore.value_leb _ _); cbn.
    + intros [-> | H]; [now left | now right].
    + intros [-> | [-> | H]]; [right; apply IH; now left | now left|].
      right. apply IH. now right.
Qed.

Lemma sort_key_of_timestamp d millis :
  Firestore.field "timestamp" d = Some (Firestore.VTimestamp millis) ->
  Firestore.sort_key "timestamp" d = Firestore.VTimestamp (millis_of d).
Proof.
  intros F. unfold Firestore.sort_key, millis_of. now rewrite F.
Qed.

(** Sorting stamped entries keeps them all and puts a latest one first. *)
Lemma sorted_by_timestamp_head docs :
  (forall d, In d docs ->
             exists millis,
               Firestore.field "timestamp" d
               = Some (Firestore.VTimestamp millis)) ->
  (forall d,
      In d (fold_right (Firestore.insert_desc "timestamp") [] docs)
      <-> In d docs)
  /\ match fold_right (Firestore.insert_desc "timestamp") [] docs with
     | [] => True
     | first :: _ =>
         forall d, In d docs -> millis_of d <= millis_of first
     end.
Proof.
  induction docs as [|x rest IH]; intros T.
  - split; [intros d; reflexivity | exact I].
  - destruct IH as [M H]; [intros d D; apply T; now right|].
    assert (forall d,
               In d (fold_right (Firestore.insert_desc "timestamp") []
                       (x :: rest))
               <-> In d (x :: rest)) as M'.
    { intros d. cbn [fold_right]. split.
      - intros D. apply insert_desc_In in D as [-> | D];
          [now left | right; now apply M].
      - intros [<- | D]; apply insert_desc_keeps;
          [now left | right; now apply M]. }
    split; [exact M'|].
    cbn [fold_right].
    destruct (fold_right (Firestore.insert_desc "timestamp") [] rest)
      as [|e sorted] eqn:S.
    + cbn. intros d [<- | D]; [lia|].
      apply M in D. destruct D.
    + cbn [Firestore.insert_desc].
      destruct (T x (or_introl eq_refl)) as [tx Fx].
      destruct (T e) as [te Fe]; [right; apply M; now left|].
      rewrite (sort_key_of_timestamp e te Fe),
        (sort_key_of_timestamp x tx Fx).
      cbn [Firestore.value_leb].
      destruct (millis_of e <=? millis_of x) eqn:L.
      * apply Z.leb_le in L. intros d [<- | D]; [lia|].
        specialize (H d D). lia.
      * apply Z.leb_gt in L. intros d [<- | D]; [lia|].
        exact (H d D).
Qed.

Lemma value_eqb_string v s :
  Firestore.value_eqb v (Firestore.VString s) = true ->
  v = Firestore.VString s.
Proof.
  destruct v; cbn; try discriminate.
  intros E. apply String.eqb_eq in E. now subst.
Qed.

Lemma where_eq_In name s docs d :
  In d (Firestore.where_eq name (Firestore.VString s) docs)
  <-> In d docs /\ Firestore.field name d = Some (Firestore.VString s).
Proof.
  unfold Firestore.where_eq. rewrite filter_In. split.
  - intros [D F]. split; [exact D|].
    destruct (Firestore.field name d) as [v|]; [|discriminate].
    now rewrite (value_eqb_string v s F).
  - intros [D F]. split; [exact D|]. rewrite F. cbn.
    apply String.eqb_refl.
Qed.

(** Every entry the cooldown query returns is an entry of the phone. *)
Lemma recentMessages_of_phone phone docs d :
  In d (recentMessages_query phone docs) ->
  In d docs /\ Firestore.field "phone" d = Some (Firestore.VString phone).
Proof.
  unfold recentMessages_query. intros H.
  apply limit_In, orderBy_desc_In in H as [H _].
  now apply where_eq_In in H.
Qed.

(** When the phone has a stamped entry, the query returns one entry of
    the phone, and no stamped entry of the phone is later than it. *)
Lemma recentMessages_latest phone docs d millis :
  stamps_are_timestamps phone docs ->
  In d docs ->
  Firestore.field "phone" d = Some (Firestore.VString phone) ->
  Firestore.field "timestamp" d = Some (Firestore.VTimestamp millis) ->
  exists first latest,
    recentMessages_query phone docs = [first]
    /\ Firestore.field "timestamp" first
       = Some (Firestore.VTimestamp latest)
    /\ millis <= latest.
Proof.
  intros T D P F. unfold recentMessages_query, Firestore.orderBy_desc.
  set (stamped :=
         filter (fun d => match Firestore.field "timestamp" d with
                          | Some _ => true
                          | None => false
                          end)
           (Firestore.where_eq "phone" (Firestore.VString phone) docs)).
  assert (forall e, In e stamped ->
                    exists t, Firestore.field "timestamp" e
                              = Some (Firestore.VTimestamp t)) as A.
  { intros e E. apply filter_In in E as [E S].
    apply where_eq_In in E as [E Pe].
    destruct (Firestore.field "timestamp" e) as [v|] eqn:Fe; [|discriminate].
    destruct (T e v E Pe Fe) as [t ->]. now exists t. }
  assert (In d stamped) as Ds.
  { apply filter_In. split; [now apply where_eq_In|]. now rewrite F. }
  destruct (sorted_by_timestamp_head stamped A) as [M H].
  destruct (fold_right (Firestore.insert_desc "timestamp") [] stamped)
    as [|first sorted] eqn:S.
  - apply M in Ds. destruct Ds.
  - destruct (A first) as [latest Ff]; [apply M; now left|].
    exists first, latest. split; [reflexivity|]. split; [exact Ff|].
    specialize (H d Ds). unfold millis_of in H. now rewrite F, Ff in H.
Qed.

Lemma docs0_timestamp_toDate_normal docs w hh w' :
  docs0_timestamp_toDate docs w = (Normal hh, w') ->
  exists d rest,
    docs = d :: rest
    /\ Firestore.field "timestamp" d = Some (Firestore.VTimestamp hh).
Proof.
  unfold docs0_timestamp_toDate.
  destruct docs as [|d rest]; [discriminate|].
  destruct (Firestore.field "timestamp" d) as [[| |s|millis]|] eqn:F;
    try discriminate.
  cbv [ret]. intros [= <- _]. now exists d, rest.
Qed.

(** ** Further properties of the handlers *)

Section Gates.

Variable Buffer_toString : Buffer -> string.
Variable createHmac_sha256_base64 : string -> string -> string.
Variable parsePhoneNumberFromString : string -> string -> option PhoneNumber.
Variable parseFloat_text : string -> string.
Variable env : ProcessEnv.

Local Abbreviation on_checkout :=
  (checkouts_update Buffer_toString createHmac_sha256_base64
     parsePhoneNumberFromString env).
Local Abbreviation on_order :=
  (orders_create Buffer_toString createHmac_sha256_base64
     parsePhoneNumberFromString parseFloat_text env).
Local Abbreviation verifies :=
  (signature_verifies Buffer_toString createHmac_sha256_base64 env).

(** X5: a request whose signature does not verify is answered 403 and
    dropped by both handlers: nothing is posted, nothing is logged, and
    the payload is not looked at. *)
Theorem unverified_request_is_dropped amb req w raw :
  rawBody req = Some raw ->
  signature_verifies Buffer_toString createHmac_sha256_base64 env req raw
  = false ->
  checkouts_update Buffer_toString createHmac_sha256_base64
    parsePhoneNumberFromString env amb req w
  = (Normal tt, answered 403 w)
  /\ orders_create Buffer_toString createHmac_sha256_base64
       parsePhoneNumberFromString parseFloat_text env amb req w
     = (Normal tt, answered 403 w).
Proof.
  intros R V. split.
  - exact (checkouts_update_rejects Buffer_toString createHmac_sha256_base64
             parsePhoneNumberFromString env amb req w raw R V).
  - exact (orders_create_rejects Buffer_toString createHmac_sha256_base64
             parsePhoneNumberFromString parseFloat_text env amb req w raw
             R V).
Qed.

(** X6: when header and secret are there but the request has no stored
    raw body, both handlers throw at [req.rawBody.toString] before any
    status is sent: the request gets no answer at all. *)
Theorem missing_raw_body_throws amb req w h :
  header_hmac req = Some h ->
  h <> "" ->
  SHOPIFY_SECRET_KEY env <> "" ->
  rawBody req = None ->
  checkouts_update Buffer_toString createHmac_sha256_base64
    parsePhoneNumberFromString env amb req w
  = (Thrown (Js.TypeError
               "Cannot read properties of undefined (reading 'toString')"),
     w)
  /\ orders_create Buffer_toString createHmac_sha256_base64
       parsePhoneNumberFromString parseFloat_text env amb req w
     = (Thrown (Js.TypeError
                  "Cannot read properties of undefined (reading 'toString')"),
        w).
Proof.
  intros H NE S R. unfold checkouts_update, orders_create.
  rewrite H, (not_present h NE).
  apply truthy_true_iff in S. rewrite S. cbn [negb orb].
  unfold bind at 1. unfold bind at 2. unfold rawBody_toString. rewrite R.
  split; reflexivity.
Qed.

(** X7: when the phone text does not parse, or parses to a number that
    is not valid, a verified request is answered 200 and dropped by both
    handlers. *)
Theorem unusable_phone_is_dropped amb req w raw :
  rawBody req = Some raw ->
  signature_verifies Buffer_toString createHmac_sha256_base64 env req raw
  = true ->
  (parsePhoneNumberFromString
     (Js.nullish_default (rawPhone (body req)) "") "IN" = None
   \/ exists phoneNumber,
       parsePhoneNumberFromString
         (Js.nullish_default (rawPhone (body req)) "") "IN"
       = Some phoneNumber
       /\ isValid phoneNumber = false) ->
  checkouts_update Buffer_toString createHmac_sha256_base64
    parsePhoneNumberFromString env amb req w
  = (Normal tt, answered 200 w)
  /\ orders_create Buffer_toString createHmac_sha256_base64
       parsePhoneNumberFromString parseFloat_text env amb req w
     = (Normal tt, answered 200 w).
Proof.
  intros R V P.
  rewrite (checkouts_update_accepts Buffer_toString createHmac_sha256_base64
             parsePhoneNumberFromString env amb req w raw R V).
  rewrite (orders_create_accepts Buffer_toString createHmac_sha256_base64
             parsePhoneNumberFromString parseFloat_text env amb req w raw
             R V).
  cbv zeta.
  destruct (negb (Js.not_ (completed_at (body req))));
    destruct (Js.not_ (rawPhone (body req)));
    destruct P as [P | (p & P & I)]; rewrite ?P, ?I; split; reflexivity.
Qed.

(** X8: a verified checkout whose id already has an entry in the log, of
    whatever status and written by whichever handler, is answered 200 and
    dropped: a failed attempt is not retried by a redelivery. *)
Theorem logged_checkout_is_dropped amb req w raw :
  rawBody req = Some raw ->
  signature_verifies Buffer_toString createHmac_sha256_base64 env req raw
  = true ->
  (1 <= entries_for (id (body req)) (whatsappLogs w))%nat ->
  checkouts_update Buffer_toString createHmac_sha256_base64
    parsePhoneNumberFromString env amb req w
  = (Normal tt, answered 200 w).
Proof.
  intros R V E.
  rewrite (checkouts_update_accepts Buffer_toString createHmac_sha256_base64
             parsePhoneNumberFromString env amb req w raw R V).
  cbv zeta.
  destruct (negb (Js.not_ (completed_at (body req)))); [reflexivity|].
  destruct (Js.not_ (rawPhone (body req))); [reflexivity|].
  destruct (parsePhoneNumberFromString _ _) as [p|]; [|reflexivity].
  destruct (negb (isValid p)); [reflexivity|].
  unfold bind at 1. cbn [get answered whatsappLogs].
  unfold entries_for in E.
  destruct (Firestore.where_eq "checkoutId" _ (whatsappLogs w));
    [cbn in E; lia | reflexivity].
Qed.

(** The checkout handler once signature, completion flag, phone and
    dedup have let the event through. *)
Lemma checkouts_update_at_cooldown amb req w raw phone phoneNumber :
  rawBody req = Some raw ->
  verifies req raw = true ->
  Js.not_ (completed_at (body req)) = true ->
  rawPhone (body req) = Some phone ->
  phone <> "" ->
  parsePhoneNumberFromString phone "IN" = Some phoneNumber ->
  isValid phoneNumber = true ->
  entries_for (id (body req)) (whatsappLogs w) = 0%nat ->
  on_checkout amb req w
  = (hh <- docs0_timestamp_toDate
             (recentMessages_query (number phoneNumber) (whatsappLogs w)) ;;
     if negb (Firestore.empty
                (recentMessages_query (number phoneNumber) (whatsappLogs w)))
        && (new_Date amb - hh <? 24 * 60 * 60 * 1000)
     then ret tt
     else
       dispatch env amb
         (checkout_messageData env (number phoneNumber)
            (customerName (body req)))
         (getFullName (body req)) (number phoneNumber) (id (body req)))
      (answered 200 w).
Proof.
  intros R V C RP NE P I E.
  rewrite (checkouts_update_accepts Buffer_toString createHmac_sha256_base64
             parsePhoneNumberFromString env amb req w raw R V).
  cbv zeta.
  rewrite C, RP, (not_present phone NE). cbn [Js.not_ Js.nullish_default negb].
  rewrite P, I. cbn [negb].
  unfold bind at 1. cbn [get answered whatsappLogs].
  unfold entries_for in E. apply length_zero_iff_nil in E. rewrite E.
  cbn [Firestore.empty negb].
  unfold bind at 1. cbn [get whatsappLogs]. reflexivity.
Qed.

(** X9: while the phone has an entry stamped less than 24 hours before
    the run (its stamps being timestamps), a verified checkout for that
    phone is answered 200 and dropped; the entry's status plays no part,
    so a recorded failure holds back the next message as well. *)
Theorem recent_entry_blocks_checkout amb req w raw phoneNumber d millis :
  rawBody req = Some raw ->
  signature_verifies Buffer_toString createHmac_sha256_base64 env req raw
  = true ->
  parsePhoneNumberFromString
    (Js.nullish_default (rawPhone (body req)) "") "IN" = Some phoneNumber ->
  stamps_are_timestamps (number phoneNumber) (whatsappLogs w) ->
  In d (whatsappLogs w) ->
  Firestore.field "phone" d = Some (Firestore.VString (number phoneNumber)) ->
  Firestore.field "timestamp" d = Some (Firestore.VTimestamp millis) ->
  new_Date amb - millis < 24 * 60 * 60 * 1000 ->
  checkouts_update Buffer_toString createHmac_sha256_base64
    parsePhoneNumberFromString env amb req w
  = (Normal tt, answered 200 w).
Proof.
  intros R V P T D Fp Ft A.
  rewrite (checkouts_update_accepts Buffer_toString createHmac_sha256_base64
             parsePhoneNumberFromString env amb req w raw R V).
  cbv zeta.
  destruct (negb (Js.not_ (completed_at (body req)))); [reflexivity|].
  destruct (Js.not_ (rawPhone (body req))); [reflexivity|].
  rewrite P.
  destruct (negb (isValid phoneNumber)); [reflexivity|].
  unfold bind at 1. cbn [get answered whatsappLogs].
  destruct (negb (Firestore.empty _)); [reflexivity|].
  unfold bind at 1. cbn [get answered whatsappLogs].
  destruct (recentMessages_latest (number phoneNumber) (whatsappLogs w)
              d millis T D Fp Ft) as (first & latest & Q & Ff & L).
  rewrite Q. unfold bind at 1. unfold docs0_timestamp_toDate. rewrite Ff.
  cbn [ret Firestore.empty negb andb].
  assert ((new_Date amb - latest <? 24 * 60 * 60 * 1000) = true) as ->
      by (apply Z.ltb_lt; lia).
  reflexivity.
Qed.

(** X10: a verified, not completed checkout with a valid phone and no
    entry for its id is dispatched (one post, one entry) when the phone
    has a stamped entry and every stamped entry of the phone is at least
    24 hours old; exactly 24 hours is enough. *)
Theorem elapsed_cooldown_dispatches amb req w raw phone phoneNumber d millis :
  rawBody req = Some raw ->
  signature_verifies Buffer_toString createHmac_sha256_base64 env req raw
  = true ->
  Js.not_ (completed_at (body req)) = true ->
  rawPhone (body req) = Some phone ->
  phone <> "" ->
  parsePhoneNumberFromString phone "IN" = Some phoneNumber ->
  isValid phoneNumber = true ->
  entries_for (id (body req)) (whatsappLogs w) = 0%nat ->
  stamps_are_timestamps (number phoneNumber) (whatsappLogs w) ->
  In d (whatsappLogs w) ->
  Firestore.field "phone" d = Some (Firestore.VString (number phoneNumber)) ->
  Firestore.field "timestamp" d = Some (Firestore.VTimestamp millis) ->
  (forall e stamp,
      In e (whatsappLogs w) ->
      Firestore.field "phone" e
      = Some (Firestore.VString (number phoneNumber)) ->
      Firestore.field "timestamp" e = Some (Firestore.VTimestamp stamp) ->
      24 * 60 * 60 * 1000 <= new_Date amb - stamp) ->
  checkouts_update Buffer_toString createHmac_sha256_base64
    parsePhoneNumberFromString env amb req w
  = (Normal tt,
     dispatched env amb
       (checkout_messageData env (number phoneNumber)
          (customerName (body req)))
       (getFullName (body req)) (number phoneNumber) (id (body req))
       (answered 200 w)).
Proof.
  intros R V C RP NE P I E T D Fp Ft Old.
  rewrite (checkouts_update_at_cooldown amb req w raw phone phoneNumber
             R V C RP NE P I E).
  destruct (recentMessages_latest (number phoneNumber) (whatsappLogs w)
              d millis T D Fp Ft) as (first & latest & Q & Ff & L).
  destruct (recentMessages_of_phone (number phoneNumber) (whatsappLogs w)
              first) as [Df Pf]; [rewrite Q; now left|].
  specialize (Old first latest Df Pf Ff).
  rewrite Q. unfold bind at 1. unfold docs0_timestamp_toDate. rewrite Ff.
  cbn [ret Firestore.empty negb andb].
  assert ((new_Date amb - latest <? 24 * 60 * 60 * 1000) = false) as ->
      by (apply Z.ltb_ge; lia).
  apply dispatch_run.
Qed.

(** Every run of the checkout handler that posts found, for the phone it
    posts to, a latest stamped entry that is at least 24 hours old. *)
Lemma checkouts_update_decision amb req w :
  forall r, on_checkout amb req w = r ->
  untouched w (snd r)
  \/ exists phoneNumber d rest hh,
      recentMessages_query (number phoneNumber) (whatsappLogs w) = d :: rest
      /\ Firestore.field "timestamp" d = Some (Firestore.VTimestamp hh)
      /\ 24 * 60 * 60 * 1000 <= new_Date amb - hh
      /\ r = (Normal tt,
              dispatched env amb
                (checkout_messageData env (number phoneNumber)
                   (customerName (body req)))
                (getFullName (body req)) (number phoneNumber) (id (body req))
                (answered 200 w)).
Proof.
  intros r. unfold checkouts_update, untouched.
  destruct (Js.not_ (header_hmac req) || _)%bool; [quiet|].
  unfold bind at 1. unfold rawBody_toString.
  destruct (rawBody req) as [text|]; [|quiet].
  cbn [ret].
  destruct (negb (String.eqb _ _)); [quiet|].
  unfold bind at 1. cbn [sendStatus].
  destruct (negb (Js.not_ (completed_at (body req)))); [quiet|].
  destruct (Js.not_ (rawPhone (body req))); [quiet|].
  destruct (parsePhoneNumberFromString _ _) as [phoneNumber|]; [|quiet].
  destruct (negb (isValid phoneNumber)); [quiet|].
  unfold bind at 1. cbn [get whatsappLogs].
  destruct (negb (Firestore.empty _)); [quiet|].
  unfold bind at 1. cbn [get whatsappLogs].
  unfold bind at 1.
  match goal with
  | |- context [docs0_timestamp_toDate ?docs ?w0] =>
      pose proof (docs0_timestamp_toDate_world docs w0) as W;
      destruct (docs0_timestamp_toDate docs w0) as [[hh|e] w'] eqn:D
  end; cbn [snd] in W; subst w'; [|quiet].
  apply docs0_timestamp_toDate_normal in D as (d & rest & Q & F).
  rewrite Q. cbn [Firestore.empty negb andb].
  destruct (new_Date amb - hh <? 24 * 60 * 60 * 1000) eqn:A; [quiet|].
  intros <-. right. exists phoneNumber, d, rest, hh.
  repeat split; try assumption.
  - now apply Z.ltb_ge in A.
  - apply dispatch_run.
Qed.

(** X11: the checkout handler only ever posts to a phone that already
    has, in the log, an entry stamped at least 24 hours before the run.
    A phone with no stamped entry is never written to by this handler. *)
Theorem checkout_posts_need_old_entry amb req w p :
  In p (posted (snd (checkouts_update Buffer_toString
                       createHmac_sha256_base64 parsePhoneNumberFromString
                       env amb req w))) ->
  In p (posted w)
  \/ exists d hh,
      In d (whatsappLogs w)
      /\ Firestore.field "phone" d = Some (Firestore.VString (to (data p)))
      /\ Firestore.field "timestamp" d = Some (Firestore.VTimestamp hh)
      /\ 24 * 60 * 60 * 1000 <= new_Date amb - hh.
Proof.
  destruct (checkouts_update_decision amb req w _ eq_refl)
    as [[_ P] | (pn & d & rest & hh & Q & F & A & ->)].
  - rewrite P. now left.
  - cbn [snd dispatched posted answered]. intros H.
    apply in_app_or in H as [H | [<- | []]]; [now left|].
    right. exists d, hh.
    destruct (recentMessages_of_phone (number pn) (whatsappLogs w) d)
      as [D Fp]; [rewrite Q; now left|].
    repeat split; assumption.
Qed.

End Gates.

(** ** Deliveries in sequence *)

Lemma dispatch_entry_phone env amb messageData fullName phone checkoutId :
  Firestore.field "phone"
    (dispatch_entry env amb messageData fullName phone checkoutId)
  = Some (Firestore.VString phone).
Proof.
  unfold dispatch_entry. repeat branch; reflexivity.
Qed.

Lemma sent_entry_unstamped fullName phone checkoutId response :
  Firestore.field "timestamp" (sent_entry fullName phone checkoutId response)
  = None.
Proof. reflexivity. Qed.

Lemma dispatch_entry_stamped_is_failed env amb messageData fullName phone
      checkoutId :
  stamped_is_failed
    (dispatch_entry env amb messageData fullName phone checkoutId).
Proof.
  unfold stamped_is_failed, dispatch_entry.
  destruct (provider amb _) as [response | error]; [|reflexivity].
  destruct (Firestore.valid_document _); [|reflexivity].
  rewrite sent_entry_unstamped. congruence.
Qed.

Lemma entries_for_other eventId other doc :
  Firestore.field "checkoutId" doc = Some (Firestore.VString eventId) ->
  other <> eventId ->
  entries_for other [doc] = 0%nat.
Proof.
  intros F N. unfold entries_for, Firestore.where_eq. cbn [filter].
  rewrite F. cbn [Firestore.value_eqb].
  destruct (String.eqb eventId other) eqn:E; [|reflexivity].
  apply String.eqb_eq in E. congruence.
Qed.

Section Sequences.

Variable Buffer_toString : Buffer -> string.
Variable createHmac_sha256_base64 : string -> string -> string.
Variable parsePhoneNumberFromString : string -> string -> option PhoneNumber.
Variable parseFloat_text : string -> string.
Variable env : ProcessEnv.

Local Abbreviation on_checkout :=
  (checkouts_update Buffer_toString createHmac_sha256_base64
     parsePhoneNumberFromString env).
Local Abbreviation run :=
  (handle Buffer_toString createHmac_sha256_base64
     parsePhoneNumberFromString parseFloat_text env).
Local Abbreviation run_all :=
  (serve Buffer_toString createHmac_sha256_base64
     parsePhoneNumberFromString parseFloat_text env).

(** One delivery, to either route, leaves log and endpoint as they were
    or is one [dispatch] to the phone the parser returned. *)
Lemma handle_outcome d w :
  untouched w (snd (run d w))
  \/ exists messageData fullName phone,
      to messageData = phone
      /\ snd (run d w)
         = dispatched env (surroundings d) messageData fullName phone
             (id (body (request d))) (answered 200 w).
Proof.
  unfold handle. destruct (route d).
  - destruct (checkouts_update_outcome Buffer_toString
                createHmac_sha256_base64 parsePhoneNumberFromString env
                (surroundings d) (request d) w _ eq_refl)
      as [U | (p & _ & _ & _ & _ & _ & ->)]; [now left|].
    right. do 3 eexists. split; [|reflexivity]. reflexivity.
  - destruct (orders_create_outcome Buffer_toString
                createHmac_sha256_base64 parsePhoneNumberFromString
                parseFloat_text env (surroundings d) (request d) w _ eq_refl)
      as [U | (p & _ & _ & _ & ->)]; [now left|].
    right. do 3 eexists. split; [|reflexivity]. reflexivity.
Qed.

(** X12: the log only grows and every post is recorded.  After any
    sequence of deliveries to the two routes, the posts made and the
    entries written extend what was there, pair up one to one with the
    entry holding the phone its message was sent to, and there is at most
    one pair per delivery. *)
Theorem serve_records_every_post deliveries w :
  exists posts entries,
    posted (serve Buffer_toString createHmac_sha256_base64
              parsePhoneNumberFromString parseFloat_text env deliveries w)
    = (posted w ++ posts)%list
    /\ whatsappLogs
         (serve Buffer_toString createHmac_sha256_base64
            parsePhoneNumberFromString parseFloat_text env deliveries w)
       = (whatsappLogs w ++ entries)%list
    /\ Forall2 (fun p e =>
                  Firestore.field "phone" e
                  = Some (Firestore.VString (to (data p))))
               posts entries
    /\ (List.length entries <= List.length deliveries)%nat.
Proof.
  revert w. induction deliveries as [|d rest IH]; intros w.
  - exists [], []. cbn. rewrite !app_nil_r. repeat split; constructor.
  - cbn [serve].
    destruct (IH (snd (run d w))) as (posts & entries & P & L & F & N).
    destruct (handle_outcome d w)
      as [[UL UP] | (md & fn & ph & T & E)].
    + exists posts, entries. rewrite P, L, UL, UP.
      repeat split; try assumption. cbn [List.length]. lia.
    + exists (message_post env md :: posts),
        (dispatch_entry env (surroundings d) md fn ph
           (id (body (request d))) :: entries).
      rewrite P, L, E. cbn [dispatched posted whatsappLogs answered].
      rewrite <- !app_assoc. repeat split.
      * constructor; [|exact F].
        cbn [message_post data]. rewrite T. apply dispatch_entry_phone.
      * cbn [List.length]. lia.
Qed.

(** X13: in a log built by the handlers every stamped entry records a
    failure: if that holds of the log, it holds after any sequence of
    deliveries.  The entries of accepted messages are never stamped. *)
Theorem serve_stamps_only_failures deliveries w :
  Forall stamped_is_failed (whatsappLogs w) ->
  Forall stamped_is_failed
    (whatsappLogs
       (serve Buffer_toString createHmac_sha256_base64
          parsePhoneNumberFromString parseFloat_text env deliveries w)).
Proof.
  revert w. induction deliveries as [|d rest IH]; intros w H; [exact H|].
  cbn [serve]. apply IH.
  destruct (handle_outcome d w) as [[UL _] | (md & fn & ph & _ & E)].
  - now rewrite UL.
  - rewrite E. cbn [dispatched whatsappLogs answered].
    apply Forall_app. split; [exact H|].
    constructor; [apply dispatch_entry_stamped_is_failed | constructor].
Qed.

(** One checkout delivery keeps every event id at no more than one
    entry. *)
Lemma checkouts_update_keeps_ids_unique amb req w :
  (forall eventId, (entries_for eventId (whatsappLogs w) <= 1)%nat) ->
  forall eventId,
    (entries_for eventId (whatsappLogs (snd (on_checkout amb req w))) <= 1)%nat.
Proof.
  intros H eventId.
  destruct (checkouts_update_outcome Buffer_toString createHmac_sha256_base64
              parsePhoneNumberFromString env amb req w _ eq_refl)
    as [[UL _] | (p & _ & _ & _ & _ & E & ->)].
  - rewrite UL. apply H.
  - cbn [snd dispatched whatsappLogs answered]. rewrite entries_for_app.
    destruct (String.eqb eventId (id (body req))) eqn:Q.
    + apply String.eqb_eq in Q. subst eventId. rewrite E.
      rewrite (entries_for_one _ _ (dispatch_entry_checkoutId _ _ _ _ _ _)).
      lia.
    + apply String.eqb_neq in Q.
      rewrite (entries_for_other _ _ _
                 (dispatch_entry_checkoutId _ _ _ _ _ _) Q).
      specialize (H eventId). lia.
Qed.

(** X14: deliveries to the checkout route keep the log free of
    duplicates: if no event id has more than one entry, none has after
    any sequence of checkout deliveries, whatever their ids, signatures
    and order. *)
Theorem checkout_deliveries_keep_ids_unique deliveries w :
  Forall (fun d => route d = CheckoutsUpdate) deliveries ->
  (forall eventId, (entries_for eventId (whatsappLogs w) <= 1)%nat) ->
  forall eventId,
    (entries_for eventId
       (whatsappLogs
          (serve Buffer_toString createHmac_sha256_base64
             parsePhoneNumberFromString parseFloat_text env deliveries w))
     <= 1)%nat.
Proof.
  intros R. revert w.
  induction R as [|d rest Rd _ IH]; intros w H; [exact H|].
  cbn [serve]. apply IH. unfold handle. rewrite Rd.
  now apply checkouts_update_keeps_ids_unique.
Qed.

(** X15: on a log without stamped entries (an empty log, or a log of
    accepted messages only) the checkout route never gets anything out:
    after any sequence of checkout deliveries nothing has been posted and
    the log is what it was. *)
Theorem checkout_deliveries_on_unstamped_log deliveries w :
  Forall (fun d => route d = CheckoutsUpdate) deliveries ->
  Forall (fun e => Firestore.field "timestamp" e = None) (whatsappLogs w) ->
  untouched w
    (serve Buffer_toString createHmac_sha256_base64
       parsePhoneNumberFromString parseFloat_text env deliveries w).
Proof.
  intros R. revert w.
  induction R as [|d rest Rd _ IH]; intros w U; [now split|].
  cbn [serve].
  assert (untouched w (snd (run d w))) as [UL UP].
  { unfold handle. rewrite Rd.
    destruct (checkouts_update_decision Buffer_toString
                createHmac_sha256_base64 parsePhoneNumberFromString env
                (surroundings d) (request d) w _ eq_refl)
      as [H | (pn & e & more & hh & Q & _)]; [exact H|].
    rewrite (unstamped_entries_are_not_recent _ _ U) in Q. discriminate Q. }
  destruct (IH (snd (run d w))) as [L P]; [now rewrite UL|].
  split; congruence.
Qed.

End Sequences.

(** ** The provider's answer and the earlier copy *)

(** X16: when the post resolves but the answer has no message id or no
    status (the property is missing, so the field would be undefined),
    [add] refuses the entry of the [try] block, the [catch] block runs,
    and the message that was sent is recorded as failed, with a timestamp
    and the client's refusal as the error.  When both properties are
    there, a null included, the entry of the [try] block is written. *)
Theorem incomplete_answer_is_logged_as_failure env amb messageData fullName
        phone checkoutId w response :
  provider amb (message_post env messageData) = Resolved response ->
  (Js.opt_property (first_message response) message_id = Js.Missing
   \/ Js.opt_property (first_message response) message_status = Js.Missing ->
   dispatch env amb messageData fullName phone checkoutId w
   = (Normal tt,
      {| whatsappLogs :=
           whatsappLogs w
           ++ [[("fullName", Firestore.VString fullName);
                ("phone", Firestore.VString phone);
                ("checkoutId", Firestore.VString checkoutId);
                ("status", Firestore.VString "failed");
                ("timestamp", Firestore.VTimestamp (Timestamp_now amb));
                ("error",
                  Firestore.VString
                    (refusal amb
                       (sent_entry fullName phone checkoutId response)))]];
         posted := posted w ++ [message_post env messageData];
         statusSent := statusSent w |}))
  /\ (Js.opt_property (first_message response) message_id <> Js.Missing ->
      Js.opt_property (first_message response) message_status
      <> Js.Missing ->
      dispatch env amb messageData fullName phone checkoutId w
      = (Normal tt,
         {| whatsappLogs :=
              whatsappLogs w
              ++ [sent_entry fullName phone checkoutId response];
            posted := posted w ++ [message_post env messageData];
            statusSent := statusSent w |})).
Proof.
  intros P. rewrite dispatch_run. unfold dispatched, dispatch_entry.
  rewrite P. split.
  - intros M.
    assert (Firestore.valid_document
              (sent_entry fullName phone checkoutId response) = false) as ->;
      [|reflexivity].
    unfold sent_entry, Firestore.valid_document. cbn [forallb snd].
    destruct M as [-> | ->]; cbn.
    + reflexivity.
    + now rewrite andb_false_r.
  - intros I S.
    assert (Firestore.valid_document
              (sent_entry fullName phone checkoutId response) = true) as ->;
      [|reflexivity].
    unfold sent_entry, Firestore.valid_document. cbn [forallb snd].
    destruct (Js.opt_property (first_message response) message_id);
      [congruence | |];
      destruct (Js.opt_property (first_message response) message_status);
      first [congruence | reflexivity].
Qed.

Lemma part_000_dispatch_run Buffer_env amb phone customerName checkoutId w :
  exists post entry,
    Part000.dispatch Buffer_env amb phone customerName checkoutId w
    = (Normal tt,
       {| whatsappLogs := whatsappLogs w ++ [entry];
          posted := posted w ++ [post];
          statusSent := statusSent w |})
    /\ to (data post) = phone
    /\ Firestore.field "phone" entry = Some (Firestore.VString phone)
    /\ Firestore.field "checkoutId" entry
       = Some (Firestore.VString checkoutId).
Proof.
  unfold Part000.dispatch, try_catch, bind, axios_post, add.
  destruct (provider amb _) as [response | error];
    cbn [whatsappLogs posted statusSent].
  - destruct (Firestore.valid_document
                (Part000.sent_entry phone checkoutId response)) eqn:V.
    + do 2 eexists. split; [reflexivity|]. repeat split; reflexivity.
    + cbn. do 2 eexists. split; [reflexivity|]. repeat split; reflexivity.
  - cbn. do 2 eexists. split; [reflexivity|]. repeat split; reflexivity.
Qed.

(** X17: the earlier copy of the checkout handler and the current one
    take the same decisions.  With the same secret, on the same request,
    log and surroundings, they complete alike, send the same status, post
    to the same phones and log the same event ids and phones; they differ
    in the template of the message and the [fullName] of the entry. *)
Theorem earlier_copy_decides_alike Buffer_toString createHmac_sha256_base64
        parsePhoneNumberFromString env earlier amb req w :
  Part000.SHOPIFY_SECRET_KEY earlier = SHOPIFY_SECRET_KEY env ->
  fst (Part000.checkouts_update Buffer_toString createHmac_sha256_base64
         parsePhoneNumberFromString earlier amb req w)
  = fst (checkouts_update Buffer_toString createHmac_sha256_base64
           parsePhoneNumberFromString env amb req w)
  /\ statusSent
       (snd (Part000.checkouts_update Buffer_toString
               createHmac_sha256_base64 parsePhoneNumberFromString earlier
               amb req w))
     = statusSent
         (snd (checkouts_update Buffer_toString createHmac_sha256_base64
                 parsePhoneNumberFromString env amb req w))
  /\ map (fun p => to (data p))
       (posted
          (snd (Part000.checkouts_update Buffer_toString
                  createHmac_sha256_base64 parsePhoneNumberFromString
                  earlier amb req w)))
     = map (fun p => to (data p))
         (posted
            (snd (checkouts_update Buffer_toString createHmac_sha256_base64
                    parsePhoneNumberFromString env amb req w)))
  /\ map (fun e => (Firestore.field "checkoutId" e, Firestore.field "phone" e))
       (whatsappLogs
          (snd (Part000.checkouts_update Buffer_toString
                  createHmac_sha256_base64 parsePhoneNumberFromString
                  earlier amb req w)))
     = map (fun e => (Firestore.field "checkoutId" e,
                      Firestore.field "phone" e))
         (whatsappLogs
            (snd (checkouts_update Buffer_toString createHmac_sha256_base64
                    parsePhoneNumberFromString env amb req w))).
Proof.
  intros S. unfold Part000.checkouts_update, checkouts_update. rewrite S.
  cbv [bind sendStatus get ret throw rawBody_toString docs0_timestamp_toDate].
  repeat branch; try (repeat split; reflexivity).
  rewrite dispatch_run.
  match goal with
  | |- context [Part000.dispatch ?e ?a ?p ?c ?i ?w0] =>
      destruct (part_000_dispatch_run e a p c i w0)
        as (post & entry & -> & T & Fp & Fc)
  end.
  cbn [fst snd dispatched whatsappLogs posted statusSent].
  rewrite !map_app. cbn [map message_post data checkout_messageData to].
  rewrite T, Fp, Fc, dispatch_entry_phone, dispatch_entry_checkoutId.
  repeat split; reflexivity.
Qed.

(** ** The further properties on the concrete configuration *)

Lemma getFullName_of_blank_names_witness :
  getFullName chk_blank_names = "Unknown User".
Proof.
  apply (getFullName_of_blank_names chk_blank_names); reflexivity.
Defined.

Lemma getFullName_first_name_only_witness :
  getFullName chk_1 = Js.trim "Asha".
Proof.
  apply (getFullName_first_name_only chk_1
           {| customer_first_name := Some "Asha";
              customer_last_name := None;
              customer_phone := Some "+919876543210" |} "Asha");
    first [reflexivity | discriminate].
Defined.

Lemma unverified_request_is_dropped_witness :
  demo_checkouts_update (demo_ambient t0) (forged raw_chk_1 chk_1)
    (world_with [old_failure])
  = (Normal tt, answered 403 (world_with [old_failure]))
  /\ demo_orders_create (demo_ambient t0) (forged raw_chk_1 chk_1)
       (world_with [old_failure])
     = (Normal tt, answered 403 (world_with [old_failure])).
Proof.
  apply (unverified_request_is_dropped demo_toString demo_hmac demo_parse
           demo_parseFloat demo_env (demo_ambient t0)
           (forged raw_chk_1 chk_1) (world_with [old_failure])
           (list_byte_of_string raw_chk_1));
    reflexivity.
Defined.

Lemma missing_raw_body_throws_witness :
  demo_checkouts_update (demo_ambient t0) (bodiless chk_1) empty_world
  = (Thrown (Js.TypeError
               "Cannot read properties of undefined (reading 'toString')"),
     empty_world)
  /\ demo_orders_create (demo_ambient t0) (bodiless chk_1) empty_world
     = (Thrown (Js.TypeError
                  "Cannot read properties of undefined (reading 'toString')"),
        empty_world).
Proof.
  apply (missing_raw_body_throws demo_toString demo_hmac demo_parse
           demo_parseFloat demo_env (demo_ambient t0) (bodiless chk_1)
           empty_world "anything");
    first [reflexivity | discriminate].
Defined.

Lemma unusable_phone_is_dropped_witness :
  (demo_checkouts_update (demo_ambient t0) (signed raw_chk_1 chk_unparsed)
     (world_with [old_failure])
   = (Normal tt, answered 200 (world_with [old_failure]))
   /\ demo_orders_create (demo_ambient t0) (signed raw_chk_1 chk_unparsed)
        (world_with [old_failure])
      = (Normal tt, answered 200 (world_with [old_failure])))
  /\ (demo_checkouts_update (demo_ambient t0) (signed raw_chk_1 chk_invalid)
        (world_with [old_failure])
      = (Normal tt, answered 200 (world_with [old_failure]))
      /\ demo_orders_create (demo_ambient t0) (signed raw_chk_1 chk_invalid)
           (world_with [old_failure])
         = (Normal tt, answered 200 (world_with [old_failure]))).
Proof.
  split.
  - apply (unusable_phone_is_dropped demo_toString demo_hmac demo_parse
             demo_parseFloat demo_env (demo_ambient t0)
             (signed raw_chk_1 chk_unparsed) (world_with [old_failure])
             (list_byte_of_string raw_chk_1));
      [reflexivity | reflexivity | left; reflexivity].
  - apply (unusable_phone_is_dropped demo_toString demo_hmac demo_parse
             demo_parseFloat demo_env (demo_ambient t0)
             (signed raw_chk_1 chk_invalid) (world_with [old_failure])
             (list_byte_of_string raw_chk_1));
      [reflexivity | reflexivity |].
    right. exists {| number := "+9112"; isValid := false |}.
    split; reflexivity.
Defined.

Lemma logged_checkout_is_dropped_witness :
  demo_checkouts_update (demo_ambient t0) (signed raw_chk_1 chk_1)
    (world_with [chk_1_failure])
  = (Normal tt, answered 200 (world_with [chk_1_failure])).
Proof.
  apply (logged_checkout_is_dropped demo_toString demo_hmac demo_parse
           demo_env (demo_ambient t0) (signed raw_chk_1 chk_1)
           (world_with [chk_1_failure]) (list_byte_of_string raw_chk_1));
    [reflexivity | reflexivity | vm_compute; lia].
Defined.

Lemma recent_entry_blocks_checkout_witness :
  demo_checkouts_update (demo_ambient t0) (signed raw_chk_1 chk_1)
    (world_with [recent_sent])
  = (Normal tt, answered 200 (world_with [recent_sent])).
Proof.
  apply (recent_entry_blocks_checkout demo_toString demo_hmac demo_parse
           demo_env (demo_ambient t0) (signed raw_chk_1 chk_1)
           (world_with [recent_sent]) (list_byte_of_string raw_chk_1)
           {| number := "+919876543210"; isValid := true |}
           recent_sent (t0 - hour));
    try reflexivity.
  - intros d v [<- | []] _ [= <-]. now eexists.
  - now left.
Defined.

Lemma elapsed_cooldown_dispatches_witness :
  demo_checkouts_update (demo_ambient (t0 - hour))
    (signed raw_chk_1 chk_1) (world_with [old_failure])
  = (Normal tt,
     dispatched demo_env (demo_ambient (t0 - hour))
       (checkout_messageData demo_env "+919876543210" "Asha")
       "Asha" "+919876543210" "chk_1"
       (answered 200 (world_with [old_failure]))).
Proof.
  apply (elapsed_cooldown_dispatches demo_toString demo_hmac demo_parse
           demo_env (demo_ambient (t0 - hour)) (signed raw_chk_1 chk_1)
           (world_with [old_failure]) (list_byte_of_string raw_chk_1)
           "+919876543210"
           {| number := "+919876543210"; isValid := true |}
           old_failure (t0 - 25 * hour));
    try reflexivity.
  - discriminate.
  - intros d v [<- | []] _ [= <-]. now eexists.
  - now left.
  - intros e stamp [<- | []] _ [= <-]. vm_compute. discriminate.
Defined.

Lemma checkout_posts_need_old_entry_witness :
  In (message_post demo_env
        (checkout_messageData demo_env "+919876543210" "Asha"))
     (posted (world_with [old_failure]))
  \/ exists d hh,
      In d (whatsappLogs (world_with [old_failure]))
      /\ Firestore.field "phone" d
         = Some (Firestore.VString
                   (to (data (message_post demo_env
                                (checkout_messageData demo_env
                                   "+919876543210" "Asha")))))
      /\ Firestore.field "timestamp" d = Some (Firestore.VTimestamp hh)
      /\ 24 * 60 * 60 * 1000 <= new_Date (demo_ambient t0) - hh.
Proof.
  apply (checkout_posts_need_old_entry demo_toString demo_hmac demo_parse
           demo_env (demo_ambient t0) (signed raw_chk_1 chk_1)
           (world_with [old_failure])).
  left. reflexivity.
Defined.

Lemma serve_stamps_only_failures_witness :
  Forall stamped_is_failed
    (whatsappLogs
       (demo_serve
          [order_delivery t0 raw_ord_7 order_7;
           {| route := CheckoutsUpdate;
              surroundings := failing_ambient (t0 + 300000);
              request := signed raw_chk_1 chk_1 |}]
          (world_with [old_failure]))).
Proof.
  apply (serve_stamps_only_failures demo_toString demo_hmac demo_parse
           demo_parseFloat demo_env).
  constructor; [intros _; reflexivity | constructor].
Defined.

Lemma checkout_deliveries_keep_ids_unique_witness :
  (entries_for "chk_1"
     (whatsappLogs
        (demo_serve
           [checkout_delivery t0 raw_chk_1 chk_1;
            checkout_delivery (t0 + 300000) raw_chk_1 chk_1]
           (world_with [old_failure])))
   <= 1)%nat.
Proof.
  apply (checkout_deliveries_keep_ids_unique demo_toString demo_hmac
           demo_parse demo_parseFloat demo_env).
  - repeat constructor.
  - intros eventId. cbn [world_with whatsappLogs].
    destruct (string_dec eventId "chk_0") as [-> | N].
    + vm_compute. lia.
    + rewrite (entries_for_other "chk_0" eventId old_failure eq_refl N). lia.
Defined.

Lemma checkout_deliveries_on_unstamped_log_witness :
  untouched empty_world
    (demo_serve
       [checkout_delivery t0 raw_chk_1 chk_1;
        checkout_delivery (t0 + 300000) raw_chk_1 chk_1]
       empty_world).
Proof.
  apply (checkout_deliveries_on_unstamped_log demo_toString demo_hmac
           demo_parse demo_parseFloat demo_env).
  - repeat constructor.
  - constructor.
Defined.

Lemma incomplete_answer_is_logged_as_failure_witness :
  dispatch demo_env (statusless_ambient t0)
    (order_messageData demo_env "+919876543210" "there" "ord_7" "499")
    "Asha Rao" "+919876543210" "ord_7" empty_world
  = (Normal tt,
     {| whatsappLogs :=
          [[("fullName", Firestore.VString "Asha Rao");
            ("phone", Firestore.VString "+919876543210");
            ("checkoutId", Firestore.VString "ord_7");
            ("status", Firestore.VString "failed");
            ("timestamp", Firestore.VTimestamp (t0 + 1));
            ("error",
              Firestore.VString
                "not a valid Firestore document: undefined field value")]];
        posted :=
          [message_post demo_env
             (order_messageData demo_env "+919876543210" "there" "ord_7"
                "499")];
        statusSent := [] |})
  /\ dispatch demo_env (null_status_ambient t0)
       (order_messageData demo_env "+919876543210" "there" "ord_7" "499")
       "Asha Rao" "+919876543210" "ord_7" empty_world
     = (Normal tt,
        {| whatsappLogs :=
             [[("fullName", Firestore.VString "Asha Rao");
               ("phone", Firestore.VString "+919876543210");
               ("messageId", Firestore.VString "wamid.1");
               ("checkoutId", Firestore.VString "ord_7");
               ("status", Firestore.VNull)]];
           posted :=
             [message_post demo_env
                (order_messageData demo_env "+919876543210" "there" "ord_7"
                   "499")];
           statusSent := [] |}).
Proof.
  split.
  - apply (proj1 (incomplete_answer_is_logged_as_failure demo_env
                    (statusless_ambient t0)
                    (order_messageData demo_env "+919876543210" "there"
                       "ord_7" "499")
                    "Asha Rao" "+919876543210" "ord_7" empty_world
                    {| data_messages :=
                         Some [{| message_id := Js.Text "wamid.1";
                                  message_status := Js.Missing |}] |}
                    eq_refl)).
    right. reflexivity.
  - apply (proj2 (incomplete_answer_is_logged_as_failure demo_env
                    (null_status_ambient t0)
                    (order_messageData demo_env "+919876543210" "there"
                       "ord_7" "499")
                    "Asha Rao" "+919876543210" "ord_7" empty_world
                    {| data_messages :=
                         Some [{| message_id := Js.Text "wamid.1";
                                  message_status := Js.Null |}] |}
                    eq_refl));
      discriminate.
Defined.

Lemma earlier_copy_decides_alike_witness :
  fst (Part000.checkouts_update demo_toString demo_hmac demo_parse
         part_000_env (demo_ambient t0) (signed raw_chk_1 chk_1)
         (world_with [old_failure]))
  = fst (checkouts_update demo_toString demo_hmac demo_parse demo_env
           (demo_ambient t0) (signed raw_chk_1 chk_1)
           (world_with [old_failure]))
  /\ statusSent
       (snd (Part000.checkouts_update demo_toString demo_hmac demo_parse
               part_000_env (demo_ambient t0) (signed raw_chk_1 chk_1)
               (world_with [old_failure])))
     = statusSent
         (snd (checkouts_update demo_toString demo_hmac demo_parse demo_env
                 (demo_ambient t0) (signed raw_chk_1 chk_1)
                 (world_with [old_failure])))
  /\ map (fun p => to (data p))
       (posted
          (snd (Part000.checkouts_update demo_toString demo_hmac demo_parse
                  part_000_env (demo_ambient t0) (signed raw_chk_1 chk_1)
                  (world_with [old_failure]))))
     = map (fun p => to (data p))
         (posted
            (snd (checkouts_update demo_toString demo_hmac demo_parse
                    demo_env (demo_ambient t0) (signed raw_chk_1 chk_1)
                    (world_with [old_failure]))))
  /\ map (fun e => (Firestore.field "checkoutId" e, Firestore.field "phone" e))
       (whatsappLogs
          (snd (Part000.checkouts_update demo_toString demo_hmac demo_parse
                  part_000_env (demo_ambient t0) (signed raw_chk_1 chk_1)
                  (world_with [old_failure]))))
     = map (fun e => (Firestore.field "checkoutId" e,
                      Firestore.field "phone" e))
         (whatsappLogs
            (snd (checkouts_update demo_toString demo_hmac demo_parse
                    demo_env (demo_ambient t0) (signed raw_chk_1 chk_1)
                    (world_with [old_failure])))).
Proof.
  exact (earlier_copy_decides_alike demo_toString demo_hmac demo_parse
           demo_env part_000_env (demo_ambient t0) (signed raw_chk_1 chk_1)
           (world_with [old_failure]) eq_refl).
Defined.

(** ** How a run can end *)

Section Completions.

Variable Buffer_toString : Buffer -> string.
Variable createHmac_sha256_base64 : string -> string -> string.
Variable parsePhoneNumberFromString : string -> string -> option PhoneNumber.
Variable parseFloat_text : string -> string.
Variable env : ProcessEnv.

(** X18: [dispatch] never throws and never skips the record: whatever
    the provider answers, it makes one post and writes one entry, for the
    phone and event id it was given, and the entry either has no
    timestamp or says "failed". *)
Theorem dispatch_always_records amb messageData fullName phone checkoutId w :
  exists entry,
    dispatch env amb messageData fullName phone checkoutId w
    = (Normal tt,
       {| whatsappLogs := whatsappLogs w ++ [entry];
          posted := posted w ++ [message_post env messageData];
          statusSent := statusSent w |})
    /\ Firestore.field "phone" entry = Some (Firestore.VString phone)
    /\ Firestore.field "checkoutId" entry
       = Some (Firestore.VString checkoutId)
    /\ stamped_is_failed entry.
Proof.
  exists (dispatch_entry env amb messageData fullName phone checkoutId).
  split; [apply dispatch_run|].
  split; [apply dispatch_entry_phone|].
  split; [apply dispatch_entry_checkoutId|].
  apply dispatch_entry_stamped_is_failed.
Qed.

(** X19: the order handler never throws once it has the raw body: every
    such run completes normally, also when the provider rejects the
    message. *)
Theorem orders_create_never_throws amb req w raw :
  rawBody req = Some raw ->
  fst (orders_create Buffer_toString createHmac_sha256_base64
         parsePhoneNumberFromString parseFloat_text env amb req w)
  = Normal tt.
Proof.
  intros R.
  destruct (signature_verifies Buffer_toString createHmac_sha256_base64 env
              req raw) eqn:V.
  - rewrite (orders_create_accepts Buffer_toString createHmac_sha256_base64
               parsePhoneNumberFromString parseFloat_text env amb req w raw
               R V).
    cbv zeta. repeat branch; rewrite ?dispatch_run; reflexivity.
  - now rewrite (orders_create_rejects Buffer_toString
                   createHmac_sha256_base64 parsePhoneNumberFromString
                   parseFloat_text env amb req w raw R V).
Qed.

(** X20: the checkout handler throws, once it has the raw body, only at
    the unguarded read of the cooldown entry: the request was verified
    and answered 200, its phone parsed, nothing was posted or logged, and
    the cooldown query returned no entry or an entry whose [timestamp] is
    not a timestamp. *)
Theorem checkouts_update_throws_only_at_cooldown amb req w raw e w' :
  rawBody req = Some raw ->
  checkouts_update Buffer_toString createHmac_sha256_base64
    parsePhoneNumberFromString env amb req w = (Thrown e, w') ->
  w' = answered 200 w
  /\ signature_verifies Buffer_toString createHmac_sha256_base64 env req raw
     = true
  /\ exists phoneNumber,
      parsePhoneNumberFromString
        (Js.nullish_default (rawPhone (body req)) "") "IN"
      = Some phoneNumber
      /\ match recentMessages_query (number phoneNumber) (whatsappLogs w) with
         | [] => True
         | d :: _ =>
             forall hh,
               Firestore.field "timestamp" d
               <> Some (Firestore.VTimestamp hh)
         end.
Proof.
  intros R.
  destruct (signature_verifies Buffer_toString createHmac_sha256_base64 env
              req raw) eqn:V.
  - rewrite (checkouts_update_accepts Buffer_toString
               createHmac_sha256_base64 parsePhoneNumberFromString env amb
               req w raw R V).
    cbv zeta.
    destruct (negb (Js.not_ (completed_at (body req)))); [discriminate|].
    destruct (Js.not_ (rawPhone (body req))); [discriminate|].
    destruct (parsePhoneNumberFromString _ _) as [phoneNumber|];
      [|discriminate].
    destruct (negb (isValid phoneNumber)); [discriminate|].
    unfold bind at 1. cbn [get answered whatsappLogs].
    destruct (negb (Firestore.empty _)); [discriminate|].
    unfold bind at 1. cbn [get answered whatsappLogs].
    unfold bind at 1. unfold docs0_timestamp_toDate.
    destruct (recentMessages_query (number phoneNumber) (whatsappLogs w))
      as [|d rest] eqn:Q.
    + cbv [throw]. intros [= _ <-].
      split; [reflexivity|]. split; [reflexivity|].
      exists phoneNumber. rewrite Q. now split.
    + destruct (Firestore.field "timestamp" d) as [[| |s|millis]|] eqn:F;
        cbv [throw ret];
        try (intros [= _ <-];
             split; [reflexivity|]; split; [reflexivity|];
             exists phoneNumber; rewrite Q; split; [reflexivity|];
             intros hh; congruence).
      cbn [Firestore.empty negb andb].
      destruct (new_Date amb - millis <? 24 * 60 * 60 * 1000);
        [discriminate|].
      rewrite dispatch_run. discriminate.
  - rewrite (checkouts_update_rejects Buffer_toString
               createHmac_sha256_base64 parsePhoneNumberFromString env amb
               req w raw R V).
    discriminate.
Qed.

(** X21: a delivery to either route ends in one of three ways: answered
    403 with nothing else done; answered 200 (once, whatever follows); or
    thrown with no answer and nothing done. *)
Theorem every_run_answers_at_most_once d w :
  handle Buffer_toString createHmac_sha256_base64
    parsePhoneNumberFromString parseFloat_text env d w
  = (Normal tt, answered 403 w)
  \/ statusSent
       (snd (handle Buffer_toString createHmac_sha256_base64
               parsePhoneNumberFromString parseFloat_text env d w))
     = (statusSent w ++ [200])%list
  \/ exists e,
      handle Buffer_toString createHmac_sha256_base64
        parsePhoneNumberFromString parseFloat_text env d w
      = (Thrown e, w).
Proof.
  unfold handle.
  destruct (rawBody (request d)) as [raw|] eqn:R.
  - destruct (signature_verifies Buffer_toString createHmac_sha256_base64 env
                (request d) raw) eqn:V.
    + right. left. destruct (route d).
      * exact (checkouts_update_status_kept Buffer_toString
                 createHmac_sha256_base64 parsePhoneNumberFromString env
                 (surroundings d) (request d) w raw R V).
      * exact (orders_create_status_kept Buffer_toString
                 createHmac_sha256_base64 parsePhoneNumberFromString
                 parseFloat_text env (surroundings d) (request d) w raw R V).
    + left. destruct (route d).
      * exact (checkouts_update_rejects Buffer_toString
                 createHmac_sha256_base64 parsePhoneNumberFromString env
                 (surroundings d) (request d) w raw R V).
      * exact (orders_create_rejects Buffer_toString
                 createHmac_sha256_base64 parsePhoneNumberFromString
                 parseFloat_text env (surroundings d) (request d) w raw R V).
  - unfold checkouts_update, orders_create.
    destruct (Js.not_ (header_hmac (request d)) || _)%bool.
    + left. destruct (route d); reflexivity.
    + right. right. unfold bind, rawBody_toString. rewrite R.
      eexists. destruct (route d); reflexivity.
Qed.

End Completions.

Lemma orders_create_never_throws_witness :
  fst (demo_orders_create (failing_ambient t0) (signed raw_ord_7 order_7)
         (world_with [recent_sent]))
  = Normal tt.
Proof.
  exact (orders_create_never_throws demo_toString demo_hmac demo_parse
           demo_parseFloat demo_env (failing_ambient t0)
           (signed raw_ord_7 order_7) (world_with [recent_sent])
           (list_byte_of_string raw_ord_7) eq_refl).
Defined.

Lemma checkouts_update_throws_only_at_cooldown_witness :
  answered 200 (world_with [null_stamped])
  = answered 200 (world_with [null_stamped])
  /\ signature_verifies demo_toString demo_hmac demo_env
       (signed raw_chk_1 chk_1) (list_byte_of_string raw_chk_1)
     = true
  /\ exists phoneNumber,
      demo_parse (Js.nullish_default (rawPhone chk_1) "") "IN"
      = Some phoneNumber
      /\ match recentMessages_query (number phoneNumber) [null_stamped] with
         | [] => True
         | d :: _ =>
             forall hh,
               Firestore.field "timestamp" d
               <> Some (Firestore.VTimestamp hh)
         end.
Proof.
  apply (checkouts_update_throws_only_at_cooldown demo_toString demo_hmac
           demo_parse demo_env (demo_ambient t0) (signed raw_chk_1 chk_1)
           (world_with [null_stamped]) (list_byte_of_string raw_chk_1)
           (Js.TypeError "Cannot read properties of null (reading 'toDate')")
           (answered 200 (world_with [null_stamped])));
    reflexivity.
Defined.


(** ** The names in the message and in the entry *)

Section Names.

Variable Buffer_toString : Buffer -> string.
Variable createHmac_sha256_base64 : string -> string -> string.
Variable parsePhoneNumberFromString : string -> string -> option PhoneNumber.
Variable parseFloat_text : string -> string.
Variable env : ProcessEnv.


End Names.

